(** * SecureTunnelingFeature: session orchestration of the device-side tunnel agent

    A shallow embedding of [source/tunneling/SecureTunnelingFeature.cpp]:
    the service resolver ([GetAddressFromService], [GetPortFromService],
    [AppendPostfixToService]), the endpoint derivation ([GetEndpoint]), the
    notification handler ([OnSubscribeToTunnelsNotifyResponse]), the static
    start-up path ([LoadFromConfig], [RunSecureTunneling]) and the registry
    of sessions [mContexts] with its removal callback
    ([OnConnectionShutdown]).

    Conventions.
    - [std::string] and [Aws::Crt::String] are [string]; the conversion
      [x.c_str()] from the second to the first is [c_str], which stops at the
      first NUL character.
    - [Aws::Crt::Optional<T>] is [option T]; dereferencing an empty optional
      or a null [unique_ptr], and dereferencing [end()], is undefined in C++:
      the functions that can do so return [option], with [None] for
      "undefined".
    - an object of class [SecureTunnelingContext] is a record that carries
      its own address [this]; a [unique_ptr] either owns such an object or is
      null; pointers are compared by address.
    - [int] is a 32-bit two's complement integer: a [Z] in that range, with
      the wrap-around of an addition written out ([to_int]).
    - the constants of [EguanaTunneling.h] and of the class header, the
      formatting helper [FormatMessage], libc's [inet_pton] and the member
      [IsDuplicateNotification] of [SecureTunnelingContext] are members of
      the classes [Constants], [Platform] and [SessionClass]. *)

From stdpp Require Import base option list strings gmap pretty.
From Stdlib Require Import ZArith Lia.

Open Scope Z_scope.
Open Scope string_scope.
Open Scope list_scope.

(** ** Strings *)

(** [Aws::Crt::String::c_str()] read back as a [std::string]: the characters
    before the first NUL. *)
Fixpoint c_str (s : string) : string :=
  match s with
  | EmptyString => EmptyString
  | String c r => if Ascii.eqb c Ascii.zero then EmptyString else String c (c_str r)
  end.

(** A string without an embedded NUL, as a C string is. *)
Fixpoint no_nul (s : string) : bool :=
  match s with
  | EmptyString => true
  | String c r => negb (Ascii.eqb c Ascii.zero) && no_nul r
  end.

(** [s.empty()] *)
Definition string_empty (s : string) : bool :=
  match s with EmptyString => true | String _ _ => false end.

(** [s.substr(0, s.find("_"))]: [find] gives [npos] when there is no
    underscore, and [substr(0, npos)] is the whole string. *)
Definition base_service (s : string) : string :=
  match String.index 0 "_" s with
  | Some i => String.substring 0 i s
  | None => s
  end.

(** The line feed character. *)
Definition line_feed : Ascii.ascii := Ascii.ascii_of_nat 10.

(** [std::getline(file, state)] on a freshly opened stream holding [content]:
    it fails when no character at all can be extracted, otherwise [state] is
    the text before the first line feed. *)
Fixpoint first_line (content : string) : string :=
  match content with
  | EmptyString => EmptyString
  | String c r => if Ascii.eqb c line_feed then EmptyString else String c (first_line r)
  end.

Definition getline (content : string) : option string :=
  if string_empty content then None else Some (first_line content).

(** [static_cast<uint16_t>(x)], and the conversion to a [uint16_t] map value. *)
Definition to_uint16 (x : Z) : Z := x mod 65536.

(** The values of type [int], and the [int] an arithmetic result is stored
    as: 32 bits, two's complement. *)
Definition is_int (x : Z) : bool := Z.leb (-2147483648) x && Z.leb x 2147483647.

Definition to_int (x : Z) : Z := (x + 2147483648) mod 4294967296 - 2147483648.

(** The underscore. *)
Definition underscore : Ascii.ascii := Ascii.ascii_of_nat 95.

(** ** What the translation unit takes from its headers and from libc *)

(** Constants of [EguanaTunneling.h] and [SecureTunnelingFeature.h]. The
    two that [AddInterlakeEndpoints] computes with are values of type
    [int]: it compares the first with its [int] counter and adds the counter
    to the second. *)
Class Constants := {
  EMC_NETWORK_BRIDGE_IP_ADDRESS : string;
  TIVA_TCP_IP_ADDRESS : string;
  TIVA_RS485_IP_ADDRESS : string;
  TIVA_SERVICE_ID_PREFIX : string;
  TIVA_TCP_IP_ADDRESS_PREFIX : string;
  MAX_INTERLAKE_SYSTEM_SIZE : Z;
  MASTER_SYSTEM_HOST_ID : Z;
  SSH_TCP_PORT : Z;
  GW_TCP_PORT : Z;
  TIVA_TCP_PORT : Z;
  DEFAULT_PROXY_ENDPOINT_HOST_FORMAT : string;
  MAX_INTERLAKE_SYSTEM_SIZE_int : is_int MAX_INTERLAKE_SYSTEM_SIZE = true;
  MASTER_SYSTEM_HOST_ID_int : is_int MASTER_SYSTEM_HOST_ID = true
}.

(** [Util::FormatMessage(format, arg)] with one string argument, and
    [inet_pton(AF_INET, text, &dst) == 1]. *)
Class Platform := {
  FormatMessage : string -> string -> string;
  inet_pton4 : string -> bool
}.

(** ** Data *)

(** The fields of [SecureTunnelingNotifyResponse] the handler reads. *)
Record SecureTunnelingNotifyResponse := {
  ClientMode : option string;
  Services : option (list string);
  ClientAccessToken : option string;
  Region : option string
}.



(** An object of class SecureTunnelingContext, whose header and
    implementation are not among the sources at hand: its address [this] and
    the arguments the constructor is called with in [createContext] and
    [LoadFromConfig] (the resource manager and the close callback, always
    [OnConnectionShutdown] of the feature, are left out). That is all an
    object is given: neither the region nor the services of a notification
    reach it. *)
Record SecureTunnelingContext := {
  this : positive;
  ctxRootCa : option string;
  ctxAccessToken : string;
  ctxEndpoint : string;
  ctxAddress : string;
  ctxPort : Z
}.

(** [std::unique_ptr<SecureTunnelingContext>] *)
Inductive unique_ptr :=
| nullptr
| owns (c : SecureTunnelingContext).

(** [p.get()], with 0 for the null pointer. *)
Definition get (p : unique_ptr) : N :=
  match p with
  | nullptr => 0%N
  | owns c => Npos (this c)
  end.

(** [operator==] on two [unique_ptr]: their addresses are compared. *)
Definition ptr_eqb (p q : unique_ptr) : bool := N.eqb (get p) (get q).

(** The part of [PlainConfig] that [LoadFromConfig] reads. *)
Record Tunneling := {
  subscribeNotification : bool;
  endpoint : option string;
  destinationAccessToken : option string;
  region : option string;
  address : option string;
  port : option Z
}.

Record PlainConfig := {
  thingName : option string;
  rootCa : option string;
  tunneling : Tunneling
}.

(** The feature object, together with the two static lookup tables of the
    class. *)
Record Feature := {
  mThingName : string;
  mRootCa : option string;
  mSubscribeNotification : bool;
  mEndpoint : option string;
  mContexts : list unique_ptr;
  mServiceToAddressMap : gmap string string;
  mServiceToPortMap : gmap string Z
}.

(** A default-constructed feature in a fresh process. *)
Definition fresh_feature : Feature :=
  {| mThingName := EmptyString; mRootCa := None; mSubscribeNotification := false;
     mEndpoint := None; mContexts := [];
     mServiceToAddressMap := ∅; mServiceToPortMap := ∅ |}.

Definition set_contexts (f : Feature) (cs : list unique_ptr) : Feature :=
  {| mThingName := mThingName f; mRootCa := mRootCa f;
     mSubscribeNotification := mSubscribeNotification f;
     mEndpoint := mEndpoint f; mContexts := cs;
     mServiceToAddressMap := mServiceToAddressMap f;
     mServiceToPortMap := mServiceToPortMap f |}.

Definition set_address_map (f : Feature) (m : gmap string string) : Feature :=
  {| mThingName := mThingName f; mRootCa := mRootCa f;
     mSubscribeNotification := mSubscribeNotification f;
     mEndpoint := mEndpoint f; mContexts := mContexts f;
     mServiceToAddressMap := m;
     mServiceToPortMap := mServiceToPortMap f |}.

Definition set_port_map (f : Feature) (m : gmap string Z) : Feature :=
  {| mThingName := mThingName f; mRootCa := mRootCa f;
     mSubscribeNotification := mSubscribeNotification f;
     mEndpoint := mEndpoint f; mContexts := mContexts f;
     mServiceToAddressMap := mServiceToAddressMap f;
     mServiceToPortMap := m |}.

(** What the surroundings contribute to one call: the content of
    [TCP_OPERSTATE_FILE] ([None] when it cannot be opened), the address
    [new] returns for a context, and what [ConnectToSecureTunnel] answers. *)
Record World := {
  operstate : option string;
  allocated : positive;
  connects : bool
}.

(** ** Service resolver *)

Section Resolver.
Context `{consts : Constants}.

(** [AppendPostfixToService] *)
Definition AppendPostfixToService (file : option string) (service : string) : string :=
  if negb (String.eqb service "TIVA") then service
  else
    match file with
    | Some content =>
        match getline content with
        | Some state =>
            if String.eqb state "up" then service +:+ "_TCP"
            else service +:+ "_RS485"
        | None => service +:+ "_RS485"
        end
    | None => service +:+ "_RS485"
    end.

(** The loop of [AddInterlakeEndpoints], from [i] on, for [n] rounds. The
    counter [i] stays below [MAX_INTERLAKE_SYSTEM_SIZE], an [int], so that
    [i++] never leaves the range of [int]; the sum
    [MASTER_SYSTEM_HOST_ID + i] can, and is then the [int] the machine
    wraps it to. *)
Fixpoint interlake_from (n : nat) (i : Z) (m : gmap string string) : gmap string string :=
  match n with
  | O => m
  | S n' =>
      let key := TIVA_SERVICE_ID_PREFIX +:+ pretty i in
      let value := TIVA_TCP_IP_ADDRESS_PREFIX +:+ pretty (to_int (MASTER_SYSTEM_HOST_ID + i)) in
      interlake_from n' (i + 1) (<[key := value]> m)
  end.

(** [AddInterlakeEndpoints] *)
Definition AddInterlakeEndpoints (m : gmap string string) : gmap string string :=
  interlake_from (Z.to_nat MAX_INTERLAKE_SYSTEM_SIZE) 0 m.

(** The table [GetAddressFromService] fills in on first use. *)
Definition address_table : gmap string string :=
  AddInterlakeEndpoints
    (<["TIVA_RS485" := TIVA_RS485_IP_ADDRESS]>
       (<["TIVA_TCP" := TIVA_TCP_IP_ADDRESS]>
          (<["GW" := EMC_NETWORK_BRIDGE_IP_ADDRESS]>
             (<["SSH" := EMC_NETWORK_BRIDGE_IP_ADDRESS]> ∅)))).

(** [GetAddressFromService]: the answer and the table it leaves behind. *)
Definition GetAddressFromService (file : option string) (service : string)
    (m : gmap string string) : string * gmap string string :=
  let m' := if decide (m = ∅) then address_table else m in
  match m' !! AppendPostfixToService file service with
  | None => (EmptyString, m')
  | Some a => (a, m')
  end.

Definition port_table : gmap string Z :=
  <["TIVA" := to_uint16 TIVA_TCP_PORT]>
    (<["GW" := to_uint16 GW_TCP_PORT]>
       (<["SSH" := to_uint16 SSH_TCP_PORT]> ∅)).

(** [GetPortFromService] *)
Definition GetPortFromService (service : string) (m : gmap string Z) : Z * gmap string Z :=
  let m' := if decide (m = ∅) then port_table else m in
  match m' !! service with
  | None => (0, m')
  | Some p => (p, m')
  end.

(** [IsValidPort] *)
Definition IsValidPort (port : Z) : bool := Z.leb 1 port && Z.leb port 65535.
End Resolver.

Section Endpoint.
Context `{consts : Constants} `{plat : Platform}.

(** [IsValidAddress] *)
Definition IsValidAddress (address : string) : bool := inet_pton4 (c_str address).

(** [GetEndpoint], on the [mEndpoint] of the feature. *)
Definition GetEndpoint (mEndpoint : option string) (region : string) : string :=
  match mEndpoint with
  | Some e => e
  | None =>
      let endpoint := FormatMessage DEFAULT_PROXY_ENDPOINT_HOST_FORMAT (c_str region) in
      if String.eqb (String.substring 0 3 region) "cn-" then endpoint +:+ ".cn"
      else endpoint
  end.
End Endpoint.

(** ** Session registry and feature controller *)

(** The [LOG_ERROR] lines with which the handler turns a notification down. *)
Inductive Rejection :=
| UnexpectedClientMode
| NoServiceRequested
| MultiPortRequest
| EmptyAccessToken
| EmptyRegion
| InvalidAddress
| InvalidPort.

(** How one run of the notification handler ends. *)
Inductive Outcome :=
| ReceivedError
| DuplicateIgnored
| Rejected (r : Rejection)
| Discarded (c : SecureTunnelingContext)
| Registered (c : SecureTunnelingContext).

(** Modelled from the spec: SecureTunnelingContext::IsDuplicateNotification
    is declared in SecureTunnelingContext.h and defined outside the sources
    at hand. Section 4.3 has it compare a notification with a session: it is
    a member of this class, a function of the session as the constructor
    leaves it and of the notification, and it leaves the session as it
    is. *)
Class SessionClass := {
  IsDuplicateNotification : SecureTunnelingContext -> SecureTunnelingNotifyResponse -> bool
}.

Section Scan.
Context `{sess : SessionClass}.

(** The scan [for (auto &c : mContexts)] that asks every session
    [c->IsDuplicateNotification] about the response and stops at the first
    one that answers yes. *)
Fixpoint any_duplicate (cs : list unique_ptr) (response : SecureTunnelingNotifyResponse)
    : option bool :=
  match cs with
  | [] => Some false
  | nullptr :: _ => None
  | owns c :: rest =>
      if IsDuplicateNotification c response then Some true
      else any_duplicate rest response
  end.
End Scan.

(** [for (auto &c : mContexts) c->m()] for a member function [m] of the
    session that the registry does not observe ([StopSecureTunnel],
    [ConnectToSecureTunnel] with its result dropped). *)
Fixpoint call_each (cs : list unique_ptr) : option unit :=
  match cs with
  | [] => Some tt
  | nullptr :: _ => None
  | owns _ :: rest => call_each rest
  end.

(** The loop of [std::remove(first, last, value)] once the first match [i]
    has been found, [n] elements being left to visit from [j] on; [value] is
    a reference to slot [k] of the very vector that is rearranged, so it is
    read again at every comparison. Moving the visited element into the
    slot [result] leaves the visited slot null. *)
Fixpoint remove_loop (n j result k : nat) (v : list unique_ptr) : list unique_ptr * nat :=
  match n with
  | O => (v, result)
  | S n' =>
      match v !! j, v !! k with
      | Some x, Some value =>
          if ptr_eqb x value then remove_loop n' (S j) result k v
          else remove_loop n' (S j) (S result) k (<[j := nullptr]> (<[result := x]> v))
      | _, _ => (v, result)
      end
  end.

(** [std::remove(v.begin(), v.end(), v[k])]: the rearranged vector and the
    position of the new logical end. *)
Definition std_remove (v : list unique_ptr) (k : nat) : list unique_ptr * nat :=
  match v !! k with
  | None => (v, length v)
  | Some value =>
      match list_find (fun x => ptr_eqb x value = true) v with
      | None => (v, length v)
      | Some (i, _) => remove_loop (length v - S i) (S i) i k v
      end
  end.

(** [v.erase(pos)] with one iterator: [pos] has to point at an element. *)
Definition erase (v : list unique_ptr) (pos : nat) : option (list unique_ptr) :=
  if Nat.ltb pos (length v) then Some (delete pos v) else None.

Section Controller.
Context `{consts : Constants} `{plat : Platform} `{sess : SessionClass}.

(** [createContext] *)
Definition createContext (f : Feature) (p : positive)
    (accessToken region address : string) (port : Z) : SecureTunnelingContext :=
  {| this := p; ctxRootCa := mRootCa f; ctxAccessToken := accessToken;
     ctxEndpoint := GetEndpoint (mEndpoint f) region;
     ctxAddress := address; ctxPort := port |}.

(** [OnSubscribeToTunnelsNotifyResponse], after the guard on [ioErr] and
    [response]. *)
Definition notified (w : World) (response : SecureTunnelingNotifyResponse)
    (f : Feature) : option (Feature * Outcome) :=
  match any_duplicate (mContexts f) response with
  | None => None
  | Some true => Some (f, DuplicateIgnored)
  | Some false =>
  match ClientMode response with
  | None => None
  | Some mode =>
  let clientMode := c_str mode in
  if negb (String.eqb clientMode "destination") then Some (f, Rejected UnexpectedClientMode)
  else
  match Services response with
  | None | Some [] => Some (f, Rejected NoServiceRequested)
  | Some (first :: others) =>
  if Nat.ltb 1 (length (first :: others)) then Some (f, Rejected MultiPortRequest)
  else
  match ClientAccessToken response with
  | None => Some (f, Rejected EmptyAccessToken)
  | Some token =>
  if string_empty token then Some (f, Rejected EmptyAccessToken)
  else
  let accessToken := c_str token in
  match Region response with
  | None => Some (f, Rejected EmptyRegion)
  | Some reg =>
  if string_empty reg then Some (f, Rejected EmptyRegion)
  else
  let region := c_str reg in
  let service := c_str first in
  let (address, am) :=
    GetAddressFromService (operstate w) service (mServiceToAddressMap f) in
  let f1 := set_address_map f am in
  if negb (IsValidAddress address) then Some (f1, Rejected InvalidAddress)
  else
  let (port, pm) := GetPortFromService (base_service service) (mServiceToPortMap f1) in
  let f2 := set_port_map f1 pm in
  if negb (IsValidPort port) then Some (f2, Rejected InvalidPort)
  else
  let context := createContext f2 (allocated w) accessToken region address port in
  if connects w
  then Some (set_contexts f2 (mContexts f2 ++ [owns context]), Registered context)
  else Some (f2, Discarded context)
  end end end end end.

(** [OnSubscribeToTunnelsNotifyResponse]; a null [response] is [None]. *)
Definition OnSubscribeToTunnelsNotifyResponse (w : World)
    (response : option SecureTunnelingNotifyResponse) (ioErr : Z)
    (f : Feature) : option (Feature * Outcome) :=
  match Z.eqb ioErr 0, response with
  | true, Some r => notified w r f
  | _, _ => Some (f, ReceivedError)
  end.

(** [OnConnectionShutdown] (built without [DISABLE_MQTT]). [find_if] gives
    the first slot whose pointer is [contextToRemove], or [end()], and the
    code then reads [*it]. *)
Definition OnConnectionShutdown (contextToRemove : N) (f : Feature) : option Feature :=
  match list_find (fun c => get c = contextToRemove) (mContexts f) with
  | None => None
  | Some (k, _) =>
      let (v, pos) := std_remove (mContexts f) k in
      match erase v pos with
      | Some v' => Some (set_contexts f v')
      | None => None
      end
  end.

(** [LoadFromConfig] *)
Definition LoadFromConfig (w : World) (config : PlainConfig) (f : Feature) : option Feature :=
  match thingName config with
  | None => None
  | Some name =>
      let f1 :=
        {| mThingName := name; mRootCa := rootCa config;
           mSubscribeNotification := subscribeNotification (tunneling config);
           mEndpoint := endpoint (tunneling config);
           mContexts := mContexts f;
           mServiceToAddressMap := mServiceToAddressMap f;
           mServiceToPortMap := mServiceToPortMap f |} in
      if subscribeNotification (tunneling config) then Some f1
      else
        match destinationAccessToken (tunneling config), region (tunneling config),
              address (tunneling config), port (tunneling config) with
        | Some token, Some reg, Some addr, Some prt =>
            let context :=
              {| this := allocated w; ctxRootCa := mRootCa f1; ctxAccessToken := token;
                 ctxEndpoint := GetEndpoint (mEndpoint f1) reg;
                 ctxAddress := addr; ctxPort := to_uint16 prt |} in
            Some (set_contexts f1 (mContexts f1 ++ [owns context]))
        | _, _, _, _ => None
        end
  end.

(** [init] *)
Definition init (w : World) (config : PlainConfig) (f : Feature) : option Feature :=
  LoadFromConfig w config f.

(** [RunSecureTunneling]: subscribing changes nothing in the feature; in
    static mode every registered session is asked to connect and the
    answer is dropped. *)
Definition RunSecureTunneling (f : Feature) : option Feature :=
  if mSubscribeNotification f then Some f
  else match call_each (mContexts f) with
       | Some _ => Some f
       | None => None
       end.

(** [start] *)
Definition start (f : Feature) : option Feature := RunSecureTunneling f.

(** [stop] *)
Definition stop (f : Feature) : option Feature :=
  match call_each (mContexts f) with
  | Some _ => Some f
  | None => None
  end.

(** [init] then [start] on a fresh feature. *)
Definition boot (w : World) (config : PlainConfig) : option Feature :=
  match init w config fresh_feature with
  | Some f => start f
  | None => None
  end.

(** Addresses of the sessions the registry owns. *)
Definition live (f : Feature) : list N := get <$> mContexts f.

(** The states the feature goes through: it is booted, then notifications
    are delivered (when it subscribed; [new] gives an address no live
    session has), sessions report their end, and the feature is
    stopped. *)
Inductive reachable : Feature -> Prop :=
| reach_boot w config f :
    boot w config = Some f -> reachable f
| reach_notify f w response ioErr f' o :
    reachable f ->
    mSubscribeNotification f = true ->
    Npos (allocated w) ∉ live f ->
    OnSubscribeToTunnelsNotifyResponse w response ioErr f = Some (f', o) ->
    reachable f'
| reach_shutdown f p f' :
    reachable f ->
    OnConnectionShutdown p f = Some f' ->
    reachable f'
| reach_stop f f' :
    reachable f ->
    stop f = Some f' ->
    reachable f'.




End Controller.

(** ** Notions of the resolver *)

(** The first line the link-state source yields: nothing when the file
    cannot be opened or holds no character. *)
Definition link_state (file : option string) : option string :=
  match file with
  | Some content => getline content
  | None => None
  end.

Section Notions.
Context `{consts : Constants} `{plat : Platform}.

(** The table [GetAddressFromService] consults: filled on first use. *)
Definition consulted (m : gmap string string) : gmap string string :=
  if decide (m = ∅) then address_table else m.

(** The table [GetPortFromService] consults: filled on first use. *)
Definition consulted_ports (m : gmap string Z) : gmap string Z :=
  if decide (m = ∅) then port_table else m.

(** The host name template filled in with the region. *)
Definition templated_hostname (region : string) : string :=
  FormatMessage DEFAULT_PROXY_ENDPOINT_HOST_FORMAT (c_str region).
End Notions.

(** ** The request validator as the specification words it *)

(** The seven checks of section 4.2, in the order it lists them. *)
Inductive ValidationCheck :=
| CheckClientMode
| CheckServicesNonEmpty
| CheckSingleService
| CheckAccessToken
| CheckRegion
| CheckAddress
| CheckPort.

Definition validation_order : list ValidationCheck :=
  [CheckClientMode; CheckServicesNonEmpty; CheckSingleService; CheckAccessToken;
   CheckRegion; CheckAddress; CheckPort].

(** The log line a failed check ends with. *)
Definition rejection_of (c : ValidationCheck) : Rejection :=
  match c with
  | CheckClientMode => UnexpectedClientMode
  | CheckServicesNonEmpty => NoServiceRequested
  | CheckSingleService => MultiPortRequest
  | CheckAccessToken => EmptyAccessToken
  | CheckRegion => EmptyRegion
  | CheckAddress => InvalidAddress
  | CheckPort => InvalidPort
  end.

(** The first entry of [services] (the empty name when there is none). *)
Definition requested_service (r : SecureTunnelingNotifyResponse) : string :=
  match Services r with
  | Some (s :: _) => s
  | _ => EmptyString
  end.

Definition non_empty_field (x : option string) : bool :=
  match x with
  | Some s => negb (string_empty s)
  | None => false
  end.

(** The strings of a notification are C strings: none has a NUL inside. *)
Definition c_strings (r : SecureTunnelingNotifyResponse) : bool :=
  from_option no_nul true (ClientMode r)
  && from_option (forallb no_nul) true (Services r)
  && from_option no_nul true (ClientAccessToken r)
  && from_option no_nul true (Region r).

(** "Normalize" of section 4.1: the bus service takes the suffix of the TCP
    mode when the first line of the link-state source is "up" and the suffix
    of the fallback mode otherwise; every other name is left as it is. *)
Definition Normalize (file : option string) (service : string) : string :=
  if bool_decide (service = "TIVA")
  then if bool_decide (link_state file = Some "up") then "TIVA_TCP" else "TIVA_RS485"
  else service.

(** The base service name: the name without its suffix, which the first
    underscore begins. *)
Fixpoint strip_suffix (service : string) : string :=
  match service with
  | EmptyString => EmptyString
  | String c rest =>
      if Ascii.eqb c underscore then EmptyString else String c (strip_suffix rest)
  end.

Section Validator.
Context `{consts : Constants} `{plat : Platform}.

(** Whether a notification passes one check, each check taken on its own.
    The address is what the address table holds for the normalized service
    and the port what the port table holds for the base service name, the
    empty address and port 0 standing for a name the table does not hold. *)
Definition passes (w : World) (f : Feature) (r : SecureTunnelingNotifyResponse)
    (c : ValidationCheck) : bool :=
  match c with
  | CheckClientMode => bool_decide (ClientMode r = Some "destination")
  | CheckServicesNonEmpty => bool_decide (default [] (Services r) ≠ [])
  | CheckSingleService => bool_decide (length (default [] (Services r)) = 1%nat)
  | CheckAccessToken => non_empty_field (ClientAccessToken r)
  | CheckRegion => non_empty_field (Region r)
  | CheckAddress =>
      IsValidAddress
        (default EmptyString
           (consulted (mServiceToAddressMap f)
              !! Normalize (operstate w) (requested_service r)))
  | CheckPort =>
      bool_decide
        (1 <= default 0 (consulted_ports (mServiceToPortMap f)
                           !! strip_suffix (requested_service r)) <= 65535)
  end.

(** The pipeline: the first check of the order that fails, if any. *)
Definition first_failing (w : World) (f : Feature) (r : SecureTunnelingNotifyResponse)
    : option ValidationCheck :=
  List.find (fun c => negb (passes w f r c)) validation_order.
End Validator.

(** ** An environment to run the model in *)

(** A stand-in for [FormatMessage] with one [%s]: the argument takes the
    place of the first [%s] of the format. *)
Fixpoint format_s (fmt arg : string) : string :=
  match fmt with
  | EmptyString => EmptyString
  | String c r =>
      match r with
      | String d r' =>
          if Ascii.eqb c (Ascii.ascii_of_nat 37) && Ascii.eqb d (Ascii.ascii_of_nat 115)
          then arg +:+ r'
          else String c (format_s r arg)
      | EmptyString => String c EmptyString
      end
  end.

Definition digit_of (c : Ascii.ascii) : option Z :=
  let n := Z.of_nat (Ascii.nat_of_ascii c) in
  if Z.leb 48 n && Z.leb n 57 then Some (n - 48) else None.

(** A stand-in for [inet_pton(AF_INET, ...)]: four decimal numbers of at most
    255, without a leading zero, separated by dots. [acc] is the number being
    read and [dots] counts the dots passed. *)
Fixpoint dotted_quad_from (s : string) (acc : option Z) (dots : nat) : bool :=
  match s with
  | EmptyString => match acc with Some _ => Nat.eqb dots 3 | None => false end
  | String c r =>
      if Ascii.eqb c (Ascii.ascii_of_nat 46)
      then match acc with Some _ => dotted_quad_from r None (S dots) | None => false end
      else
        match digit_of c, acc with
        | Some d, None => dotted_quad_from r (Some d) dots
        | Some d, Some a =>
            if Z.eqb a 0 || Z.ltb 255 (a * 10 + d) then false
            else dotted_quad_from r (Some (a * 10 + d)) dots
        | None, _ => false
        end
  end.

Definition dotted_quad (s : string) : bool := dotted_quad_from s None 0.

(** Values for the constants, along the comment of [AddInterlakeEndpoints]
    (master system at 169.254.0.6, the others following). *)
Definition sample_constants : Constants :=
  {| EMC_NETWORK_BRIDGE_IP_ADDRESS := "169.254.0.1";
     TIVA_TCP_IP_ADDRESS := "169.254.0.6";
     TIVA_RS485_IP_ADDRESS := "127.0.0.1";
     TIVA_SERVICE_ID_PREFIX := "TIVA_";
     TIVA_TCP_IP_ADDRESS_PREFIX := "169.254.0.";
     MAX_INTERLAKE_SYSTEM_SIZE := 4;
     MASTER_SYSTEM_HOST_ID := 6;
     SSH_TCP_PORT := 22;
     GW_TCP_PORT := 8080;
     TIVA_TCP_PORT := 5000;
     DEFAULT_PROXY_ENDPOINT_HOST_FORMAT := "data.tunneling.iot.%s.amazonaws.com";
     MAX_INTERLAKE_SYSTEM_SIZE_int := eq_refl;
     MASTER_SYSTEM_HOST_ID_int := eq_refl |}.

Definition sample_platform : Platform :=
  {| FormatMessage := format_s; inet_pton4 := dotted_quad |}.

(** A stand-in for [IsDuplicateNotification]: the session is asked whether
    the access token of the notification is its own. *)
Definition same_token (c : SecureTunnelingContext) (r : SecureTunnelingNotifyResponse)
    : bool :=
  match ClientAccessToken r with
  | Some token => String.eqb (c_str token) (ctxAccessToken c)
  | None => false
  end.

Definition sample_sessions : SessionClass :=
  {| IsDuplicateNotification := same_token |}.

(** A session object at address [p] with nothing but its address set. *)
Definition session_at (p : positive) : SecureTunnelingContext :=
  {| this := p; ctxRootCa := None; ctxAccessToken := EmptyString; ctxEndpoint := EmptyString;
     ctxAddress := EmptyString; ctxPort := 0 |}.

(** A notification for the SSH service. *)
Definition ssh_request : SecureTunnelingNotifyResponse :=
  {| ClientMode := Some "destination"; Services := Some ["SSH"];
     ClientAccessToken := Some "tok"; Region := Some "us-east-1" |}.

(** A configuration of the notification-driven mode and one of the static
    mode. *)
Definition subscribing_config : PlainConfig :=
  {| thingName := Some "thing"; rootCa := None;
     tunneling := {| subscribeNotification := true; endpoint := None;
                     destinationAccessToken := None; region := None;
                     address := None; port := None |} |}.

Definition static_config : PlainConfig :=
  {| thingName := Some "thing"; rootCa := None;
     tunneling := {| subscribeNotification := false; endpoint := None;
                     destinationAccessToken := Some "tok";
                     region := Some "us-east-1";
                     address := Some "10.0.0.5"; port := Some 443 |} |}.

Definition world (file : option string) (p : positive) (ok : bool) : World :=
  {| operstate := file; allocated := p; connects := ok |}.

(** What the operstate file of a network interface holds when the link is up
    and when it is down: one line. *)
Definition operstate_up : string := "up" +:+ String line_feed EmptyString.

Definition operstate_down : string := "down" +:+ String line_feed EmptyString.

(** The feature after [init] and [start] on [subscribing_config]. *)
Definition subscribed_feature : Feature :=
  {| mThingName := "thing"; mRootCa := None; mSubscribeNotification := true;
     mEndpoint := None; mContexts := [];
     mServiceToAddressMap := ∅; mServiceToPortMap := ∅ |}.

(** The session the handler builds at address [p] for [ssh_request] on the
    sample constants. *)
Definition ssh_session (p : positive) : SecureTunnelingContext :=
  {| this := p; ctxRootCa := None; ctxAccessToken := "tok";
     ctxEndpoint := "data.tunneling.iot.us-east-1.amazonaws.com";
     ctxAddress := "169.254.0.1"; ctxPort := 22 |}.

(** The feature once it serves [ssh_request] with a session at address 1. *)
Definition serving_ssh : Feature :=
  set_contexts
    (set_port_map
       (set_address_map subscribed_feature (address_table (consts := sample_constants)))
       (port_table (consts := sample_constants)))
    [owns (ssh_session 1)].

(** Requests that fail a check: a source-mode request, one for two services
    and one for a service no table knows. *)
Definition source_request : SecureTunnelingNotifyResponse :=
  {| ClientMode := Some "source"; Services := Some ["SSH"];
     ClientAccessToken := Some "tok"; Region := Some "us-east-1" |}.

Definition two_services_request : SecureTunnelingNotifyResponse :=
  {| ClientMode := Some "destination"; Services := Some ["SSH"; "GW"];
     ClientAccessToken := Some "tok"; Region := Some "us-east-1" |}.

Definition unknown_service_request : SecureTunnelingNotifyResponse :=
  {| ClientMode := Some "destination"; Services := Some ["FTP"];
     ClientAccessToken := Some "tok"; Region := Some "us-east-1" |}.

(** ** Notions the properties are stated with *)

(** What C++ grants about the registry: every slot owns a session, and
    sessions that are alive at the same time have different addresses. *)
Definition registry_wf (cs : list unique_ptr) : Prop :=
  NoDup (get <$> cs) /\ 0%N ∉ get <$> cs.

(** The registry invariant. *)
Definition registry_inv (f : Feature) : Prop := registry_wf (mContexts f).



(** A request without a client mode. *)
Definition modeless_request : SecureTunnelingNotifyResponse :=
  {| ClientMode := None; Services := Some ["SSH"];
     ClientAccessToken := Some "tok"; Region := Some "us-east-1" |}.

(** ** Notions for the further properties *)

(** The last character of a string. *)
Fixpoint last_char (s : string) : option Ascii.ascii :=
  match s with
  | EmptyString => None
  | String c EmptyString => Some c
  | String _ r => last_char r
  end.

(** A decimal digit. *)
Definition is_digit (c : Ascii.ascii) : bool :=
  let n := Ascii.nat_of_ascii c in Nat.leb 48 n && Nat.leb n 57.

(** Strings without an underscore. *)
Fixpoint no_underscore (s : string) : bool :=
  match s with
  | EmptyString => true
  | String c r => negb (Ascii.eqb c underscore) && no_underscore r
  end.

(** Strings without a line feed. *)
Fixpoint no_lf (s : string) : bool :=
  match s with
  | EmptyString => true
  | String c r => negb (Ascii.eqb c line_feed) && no_lf r
  end.

Section MoreNotions.
Context `{consts : Constants} `{plat : Platform}.

(** The key and the value [AddInterlakeEndpoints] writes in round [i]: the
    host number is the [int] sum of the master's and [i]. *)
Definition interlake_key (i : Z) : string := TIVA_SERVICE_ID_PREFIX +:+ pretty i.

Definition interlake_address (i : Z) : string :=
  TIVA_TCP_IP_ADDRESS_PREFIX +:+ pretty (to_int (MASTER_SYSTEM_HOST_ID + i)).

(** A slot that owns a session whose destination passed [IsValidAddress]
    and [IsValidPort]. *)
Definition validated (p : unique_ptr) : Prop :=
  exists c, p = owns c /\ IsValidAddress (ctxAddress c) = true /\ 1 <= ctxPort c <= 65535.

(** The static tables of a feature are empty or filled in full. *)
Definition tables_settled (f : Feature) : Prop :=
  (mServiceToAddressMap f = ∅ \/ mServiceToAddressMap f = address_table)
  /\ (mServiceToPortMap f = ∅ \/ mServiceToPortMap f = port_table).
End MoreNotions.

(** In notification mode every session of the registry is validated; in
    static mode the registry holds one session at most. *)
Definition sessions_accounted `{plat : Platform} (f : Feature) : Prop :=
  if mSubscribeNotification f then Forall validated (mContexts f)
  else (length (mContexts f) <= 1)%nat.

(** Constants under which an interlake name is "TIVA_RS485". *)
Definition shadowing_constants : Constants :=
  {| EMC_NETWORK_BRIDGE_IP_ADDRESS := "169.254.0.1";
     TIVA_TCP_IP_ADDRESS := "169.254.0.6";
     TIVA_RS485_IP_ADDRESS := "127.0.0.1";
     TIVA_SERVICE_ID_PREFIX := "TIVA_RS48";
     TIVA_TCP_IP_ADDRESS_PREFIX := "169.254.0.";
     MAX_INTERLAKE_SYSTEM_SIZE := 6;
     MASTER_SYSTEM_HOST_ID := 6;
     SSH_TCP_PORT := 22;
     GW_TCP_PORT := 8080;
     TIVA_TCP_PORT := 5000;
     DEFAULT_PROXY_ENDPOINT_HOST_FORMAT := "data.tunneling.iot.%s.amazonaws.com";
     MAX_INTERLAKE_SYSTEM_SIZE_int := eq_refl;
     MASTER_SYSTEM_HOST_ID_int := eq_refl |}.

(** Constants with the largest [int] as the host number of the master
    system. *)
Definition wrapping_constants : Constants :=
  {| EMC_NETWORK_BRIDGE_IP_ADDRESS := "169.254.0.1";
     TIVA_TCP_IP_ADDRESS := "169.254.0.6";
     TIVA_RS485_IP_ADDRESS := "127.0.0.1";
     TIVA_SERVICE_ID_PREFIX := "TIVA_";
     TIVA_TCP_IP_ADDRESS_PREFIX := "169.254.0.";
     MAX_INTERLAKE_SYSTEM_SIZE := 2;
     MASTER_SYSTEM_HOST_ID := 2147483647;
     SSH_TCP_PORT := 22;
     GW_TCP_PORT := 8080;
     TIVA_TCP_PORT := 5000;
     DEFAULT_PROXY_ENDPOINT_HOST_FORMAT := "data.tunneling.iot.%s.amazonaws.com";
     MAX_INTERLAKE_SYSTEM_SIZE_int := eq_refl;
     MASTER_SYSTEM_HOST_ID_int := eq_refl |}.

Section Served.
Context `{consts : Constants} `{plat : Platform}.

(** The session a notification with access token [tok], region [reg] and
    service [svc] is served with: the destination is what the full tables
    hold for the service. *)
Definition served_session (w : World) (f : Feature) (tok reg svc : string)
    : SecureTunnelingContext :=
  {| this := allocated w; ctxRootCa := mRootCa f; ctxAccessToken := c_str tok;
     ctxEndpoint := GetEndpoint (mEndpoint f) (c_str reg);
     ctxAddress :=
       default EmptyString
         (address_table !! AppendPostfixToService (operstate w) (c_str svc));
     ctxPort := default 0 (port_table !! base_service (c_str svc)) |}.

(** How the handler ends on a notification that has passed the checks on
    its fields, by what the full tables hold for its service. *)
Definition served_outcome (w : World) (f : Feature) (tok reg svc : string) : Outcome :=
  let c := served_session w f tok reg svc in
  if negb (inet_pton4 (c_str (ctxAddress c))) then Rejected InvalidAddress
  else if Z.eqb (ctxPort c) 0 then Rejected InvalidPort
  else if connects w then Registered c
  else Discarded c.
End Served.

(** Lists that differ in the nesting of their concatenations only. *)
Ltac reassoc :=
  repeat first [rewrite <- app_assoc | rewrite <- app_comm_cons]; try done.

(** * Properties *)

(** ** Strings *)

Lemma c_str_no_nul (s : string) : no_nul s = true -> c_str s = s.
Proof.
  induction s as [|c r IH]; simpl; [done|].
  destruct (Ascii.eqb c Ascii.zero); simpl; [done|].
  intros Hr. by rewrite IH.
Qed.

Lemma string_eqb_decide (a b : string) : String.eqb a b = bool_decide (a = b).
Proof.
  destruct (String.eqb_spec a b) as [->|Hne].
  - by rewrite bool_decide_eq_true_2.
  - by rewrite bool_decide_eq_false_2.
Qed.

(** [substr(0, 3) == "cn-"] says that the string begins with [cn-]. *)
Lemma substr_cn_prefix (s : string) :
  String.eqb (String.substring 0 3 s) "cn-" = String.prefix "cn-" s.
Proof.
  destruct (String.prefix "cn-" s) eqn:Hp.
  - apply String.prefix_correct in Hp. simpl String.length in Hp.
    rewrite Hp. apply String.eqb_refl.
  - destruct (String.eqb_spec (String.substring 0 3 s) "cn-") as [He|]; [|done].
    assert (String.prefix "cn-" s = true) as Ht by by apply String.prefix_correct.
    congruence.
Qed.

(** [substr(0, find)] of the underscore, character by character. *)
Lemma base_service_cons (c : Ascii.ascii) (r : string) :
  base_service (String c r)
  = if Ascii.eqb c underscore then EmptyString else String c (base_service r).
Proof.
  unfold base_service.
  destruct c as [[] [] [] [] [] [] [] []]; simpl;
    try destruct (String.index 0 "_" r); try done; by destruct r.
Qed.

(** ** Service resolver *)

(** The bounds of [IsValidPort]: 0 and 65536 are turned down, 1 and 65535
    are taken. *)
Example IsValidPort_bounds :
  IsValidPort 0 = false /\ IsValidPort 1 = true
  /\ IsValidPort 65535 = true /\ IsValidPort 65536 = false.
Proof. repeat split. Qed.

(** The part of a service name that ports are keyed by. *)
Example base_service_examples :
  base_service "TIVA_3" = "TIVA" /\ base_service "SSH" = "SSH"
  /\ base_service "TIVA_RS485" = "TIVA".
Proof. repeat split. Qed.

(** The stand-in for [inet_pton] on the addresses of the testable
    properties. *)
Example dotted_quad_examples :
  dotted_quad "169.254.0.6" = true /\ dotted_quad "999.1.1.1" = false
  /\ dotted_quad "localhost" = false /\ dotted_quad EmptyString = false.
Proof. repeat split. Qed.

Section ResolverFacts.
Context `{consts : Constants}.

Lemma AppendPostfixToService_other file service :
  service ≠ "TIVA" -> AppendPostfixToService file service = service.
Proof.
  intros Hne. unfold AppendPostfixToService.
  rewrite string_eqb_decide, bool_decide_eq_false_2; done.
Qed.

Lemma AppendPostfixToService_up file :
  link_state file = Some "up" -> AppendPostfixToService file "TIVA" = "TIVA_TCP".
Proof.
  unfold AppendPostfixToService, link_state. simpl.
  destruct file as [content|]; [|done].
  intros ->. done.
Qed.

Lemma AppendPostfixToService_fallback file :
  link_state file ≠ Some "up" -> AppendPostfixToService file "TIVA" = "TIVA_RS485".
Proof.
  unfold AppendPostfixToService, link_state. simpl.
  destruct file as [content|]; [|done].
  destruct (getline content) as [state|]; [|done].
  intros Hne. rewrite string_eqb_decide, bool_decide_eq_false_2; [done|congruence].
Qed.

(** C6: [AppendPostfixToService] returns every name other than "TIVA" as it
    is; "TIVA" becomes "TIVA_TCP" when the first line of the link-state
    file is exactly "up", and "TIVA_RS485" for any other line, an empty
    file or a file that cannot be opened; [GetAddressFromService] looks the
    resulting name up in the address table (answering the empty string
    when it is absent). *)
Theorem C6_service_normalization (file : option string) (service : string)
    (m : gmap string string) :
  (service ≠ "TIVA" -> AppendPostfixToService file service = service)
  /\ (link_state file = Some "up" -> AppendPostfixToService file "TIVA" = "TIVA_TCP")
  /\ (link_state file ≠ Some "up" -> AppendPostfixToService file "TIVA" = "TIVA_RS485")
  /\ GetAddressFromService file service m
     = (default EmptyString (consulted m !! AppendPostfixToService file service), consulted m).
Proof.
  split; [apply AppendPostfixToService_other|].
  split; [apply AppendPostfixToService_up|].
  split; [apply AppendPostfixToService_fallback|].
  unfold GetAddressFromService, consulted.
  by destruct (_ !! _).
Qed.
End ResolverFacts.

(** C6 on the sample constants: with a link-state file holding the line
    "up" the bus service resolves through "TIVA_TCP", with the line "down"
    through "TIVA_RS485", and "SSH" is looked up as it is. *)
Lemma C6_service_normalization_witness :
  AppendPostfixToService (Some operstate_up) "TIVA" = "TIVA_TCP"
  /\ AppendPostfixToService (Some operstate_down) "TIVA" = "TIVA_RS485"
  /\ AppendPostfixToService None "TIVA" = "TIVA_RS485"
  /\ AppendPostfixToService None "SSH" = "SSH"
  /\ (GetAddressFromService (consts := sample_constants)
        (Some operstate_up) "TIVA" ∅).1 = "169.254.0.6".
Proof.
  pose proof (C6_service_normalization (consts := sample_constants)
                (Some operstate_up) "TIVA" ∅) as (_ & Hup & _ & Hget).
  pose proof (C6_service_normalization (consts := sample_constants)
                (Some operstate_down) "TIVA" ∅) as (_ & _ & Hdown & _).
  pose proof (C6_service_normalization (consts := sample_constants) None "SSH" ∅)
    as (Hssh & _ & Hnone & _).
  split; [apply Hup; reflexivity|].
  split; [apply Hdown; discriminate|].
  split; [apply Hnone; discriminate|].
  split; [apply Hssh; discriminate|].
  rewrite Hget. reflexivity.
Defined.

(** ** Endpoint derivation *)

Section EndpointFacts.
Context `{consts : Constants} `{plat : Platform}.

(** C8: [GetEndpoint] returns the configured endpoint as it is when there is
    one; otherwise the host name template formatted with the region, with
    ".cn" appended exactly when the region begins with "cn-": nothing is
    appended for "us-east-1" and ".cn" is for "cn-north-1". *)
Theorem C8_endpoint_derivation (override : option string) (region : string) :
  GetEndpoint override region
  = match override with
    | Some e => e
    | None =>
        if String.prefix "cn-" region
        then templated_hostname region +:+ ".cn"
        else templated_hostname region
    end
  /\ GetEndpoint None "us-east-1" = templated_hostname "us-east-1"
  /\ GetEndpoint None "cn-north-1" = templated_hostname "cn-north-1" +:+ ".cn".
Proof.
  split; [|split; reflexivity].
  unfold GetEndpoint, templated_hostname.
  destruct override as [e|]; [done|].
  by rewrite substr_cn_prefix.
Qed.
End EndpointFacts.

(** ** Notification handler: the guard *)

Section GuardFacts.
Context `{consts : Constants} `{plat : Platform} `{sess : SessionClass}.

(** C10: a delivery with a nonzero [ioErr] or a null response ends the
    handler at once, before the duplicate scan and before any check: the
    feature, its registry included, is what it was and no session is
    built. *)
Theorem C10_error_delivery_returns_at_once (w : World)
    (response : option SecureTunnelingNotifyResponse) (ioErr : Z) (f : Feature) :
  ioErr ≠ 0 \/ response = None ->
  OnSubscribeToTunnelsNotifyResponse w response ioErr f = Some (f, ReceivedError).
Proof.
  unfold OnSubscribeToTunnelsNotifyResponse.
  destruct (Z.eqb_spec ioErr 0) as [->|Hne]; [|done].
  intros [Herr | ->]; done.
Qed.
End GuardFacts.

(** C10 at a transport error of 5 and at a null response. The registry of
    the feature holds a null slot, on which the duplicate scan would be
    undefined: the handler does not get that far. *)
Lemma C10_error_delivery_returns_at_once_witness :
  let f := set_contexts fresh_feature [nullptr] in
  OnSubscribeToTunnelsNotifyResponse (consts := sample_constants) (plat := sample_platform)
      (sess := sample_sessions)
    (world None 1 true) (Some ssh_request) 5 f = Some (f, ReceivedError)
  /\ OnSubscribeToTunnelsNotifyResponse (consts := sample_constants) (plat := sample_platform)
      (sess := sample_sessions)
       (world None 1 true) None 0 f = Some (f, ReceivedError)
  /\ notified (consts := sample_constants) (plat := sample_platform)
      (sess := sample_sessions)
       (world None 1 true) ssh_request f = None.
Proof.
  split; [|split].
  - apply (C10_error_delivery_returns_at_once (consts := sample_constants) (plat := sample_platform)
      (sess := sample_sessions)).
    left. discriminate.
  - apply (C10_error_delivery_returns_at_once (consts := sample_constants) (plat := sample_platform)
      (sess := sample_sessions)).
    right. reflexivity.
  - reflexivity.
Defined.

(** ** Static mode *)

Section StaticFacts.
Context `{consts : Constants} `{plat : Platform} `{sess : SessionClass}.

(** C7: in static mode, once [init] and [start] have run on a fresh
    feature, the registry holds exactly one session, built from the
    configured access token, region (through [GetEndpoint]), address and
    port (as a [uint16_t]); this holds whatever [ConnectToSecureTunnel]
    answers, and no duplicate scan is involved. *)
Theorem C7_static_session_registered (w : World) (config : PlainConfig)
    (name token reg addr : string) (prt : Z) :
  thingName config = Some name ->
  subscribeNotification (tunneling config) = false ->
  destinationAccessToken (tunneling config) = Some token ->
  region (tunneling config) = Some reg ->
  address (tunneling config) = Some addr ->
  port (tunneling config) = Some prt ->
  exists f,
    boot w config = Some f
    /\ mContexts f
       = [owns {| this := allocated w; ctxRootCa := rootCa config;
                  ctxAccessToken := token;
                  ctxEndpoint := GetEndpoint (endpoint (tunneling config)) reg;
                  ctxAddress := addr; ctxPort := to_uint16 prt |}].
Proof.
  intros Hname Hmode Htoken Hreg Haddr Hport.
  unfold boot, init, LoadFromConfig.
  rewrite Hname, Hmode, Htoken, Hreg, Haddr, Hport. simpl.
  unfold start, RunSecureTunneling. simpl.
  eexists. split; reflexivity.
Qed.
End StaticFacts.

(** C7 on the configuration of the specification (address 10.0.0.5, port
    443, region us-east-1, token tok), once with a connect that succeeds and
    once with one that fails. *)
Lemma C7_static_session_registered_witness :
  (exists f,
     boot (consts := sample_constants) (plat := sample_platform) (world None 1 true) static_config
     = Some f
     /\ mContexts f
        = [owns {| this := 1; ctxRootCa := None; ctxAccessToken := "tok";
                   ctxEndpoint := "data.tunneling.iot.us-east-1.amazonaws.com";
                   ctxAddress := "10.0.0.5"; ctxPort := 443 |}])
  /\ (exists f,
        boot (consts := sample_constants) (plat := sample_platform) (world None 1 false) static_config
        = Some f
        /\ length (mContexts f) = 1%nat).
Proof.
  split.
  - apply (C7_static_session_registered (consts := sample_constants) (plat := sample_platform)
             (world None 1 true) static_config "thing" "tok" "us-east-1" "10.0.0.5" 443);
      reflexivity.
  - destruct (C7_static_session_registered (consts := sample_constants) (plat := sample_platform)
                (world None 1 false) static_config "thing" "tok" "us-east-1" "10.0.0.5" 443)
      as (f & Hboot & Hcs); try reflexivity.
    exists f. split; [exact Hboot|]. rewrite Hcs. reflexivity.
Defined.

(** ** Session registry: removal *)

Lemma ptr_eqb_true (p q : unique_ptr) : ptr_eqb p q = true <-> get p = get q.
Proof. unfold ptr_eqb. apply N.eqb_eq. Qed.

Lemma ptr_eqb_false (p q : unique_ptr) : ptr_eqb p q = false <-> get p ≠ get q.
Proof. unfold ptr_eqb. apply N.eqb_neq. Qed.

Lemma insert_middle {A} (l1 l2 : list A) (x y : A) (n : nat) :
  n = length l1 -> <[n := y]> (l1 ++ x :: l2) = l1 ++ y :: l2.
Proof.
  intros ->. induction l1 as [|a l1 IH]; simpl; [done|]. by f_equal.
Qed.

Lemma delete_last {A} (l : list A) (x : A) : delete (length l) (l ++ [x]) = l.
Proof. rewrite delete_middle. apply app_nil_r. Qed.

(** The loop of [std::remove] once the slot [value] refers to holds an
    element [m0] that none of the elements still to visit equals: every one
    of them moves one slot down and leaves a null slot behind. *)
Lemma remove_loop_shift (rest : list unique_ptr) :
  forall (pre : list unique_ptr) (m0 : unique_ptr) (mid : list unique_ptr) (hole : unique_ptr),
    Forall (fun x => ptr_eqb x m0 = false) rest ->
    remove_loop (length rest) (S (length pre + S (length mid)))
      (length pre + S (length mid)) (length pre)
      (pre ++ m0 :: mid ++ hole :: rest)
    = (pre ++ m0 :: mid ++ rest ++ [match rest with [] => hole | _ => nullptr end],
       (length pre + S (length mid) + length rest)%nat).
Proof.
  induction rest as [|x rest IH]; intros pre m0 mid hole Hne.
  - simpl. f_equal. lia.
  - apply Forall_cons in Hne as [Hx Hrest]. simpl remove_loop.
    assert ((pre ++ m0 :: mid ++ hole :: x :: rest)
              !! S (length pre + S (length mid)) = Some x) as ->.
    { replace (pre ++ m0 :: mid ++ hole :: x :: rest)
        with ((pre ++ m0 :: mid ++ [hole]) ++ x :: rest)
        by reassoc.
      apply list_lookup_middle. rewrite length_app. simpl. rewrite length_app. simpl. lia. }
    rewrite (list_lookup_middle pre _ m0 (length pre) eq_refl). rewrite Hx.
    assert (<[S (length pre + S (length mid)) := nullptr]>
              (<[(length pre + S (length mid))%nat := x]>
                 (pre ++ m0 :: mid ++ hole :: x :: rest))
            = pre ++ m0 :: (mid ++ [x]) ++ nullptr :: rest) as ->.
    { replace (pre ++ m0 :: mid ++ hole :: x :: rest)
        with ((pre ++ m0 :: mid) ++ hole :: x :: rest)
        by reassoc.
      rewrite (insert_middle (pre ++ m0 :: mid))
        by (rewrite length_app; simpl; lia).
      replace ((pre ++ m0 :: mid) ++ x :: x :: rest)
        with ((pre ++ m0 :: mid ++ [x]) ++ x :: rest)
        by reassoc.
      rewrite (insert_middle (pre ++ m0 :: mid ++ [x]))
        by (rewrite length_app; simpl; rewrite length_app; simpl; lia).
      reassoc. }
    replace (S (S (length pre + S (length mid))))
      with (S (length pre + S (length (mid ++ [x]))))
      by (rewrite length_app; simpl; lia).
    replace (S (length pre + S (length mid)))
      with (length pre + S (length (mid ++ [x])))%nat
      by (rewrite length_app; simpl; lia).
    rewrite IH by done.
    f_equal.
    + reassoc. by destruct rest.
    + rewrite length_app. simpl. lia.
Qed.

Lemma registry_wf_split (l1 l2 : list unique_ptr) (p : unique_ptr) :
  registry_wf (l1 ++ p :: l2) ->
  (forall x, x ∈ l1 -> get x ≠ get p)
  /\ (forall x, x ∈ l2 -> get x ≠ get p)
  /\ get p ≠ 0%N
  /\ registry_wf (l1 ++ l2).
Proof.
  unfold registry_wf. rewrite !fmap_app, fmap_cons.
  intros [Hnd Hnull].
  apply NoDup_app in Hnd as (Hl1 & Hcross & Hpl2).
  apply NoDup_cons in Hpl2 as [Hp Hl2].
  repeat split.
  - intros x Hx Heq. apply (Hcross (get x)).
    + by apply list_elem_of_fmap_2.
    + rewrite Heq. left.
  - intros x Hx Heq. apply Hp. rewrite <- Heq. by apply list_elem_of_fmap_2.
  - intros Heq. apply Hnull. rewrite elem_of_app. right. rewrite Heq. left.
  - apply NoDup_app. repeat split; [done| |done].
    intros y Hy1 Hy2. apply (Hcross y Hy1). by right.
  - intros Hin. apply Hnull. rewrite elem_of_app in Hin. rewrite elem_of_app.
    destruct Hin as [Hin|Hin]; [by left|]. right. by right.
Qed.

(** The first slot that satisfies [P] is the slot after [l1] when no element
    of [l1] satisfies it. *)
Lemma list_find_middle {A} (P : A -> Prop) `{forall x, Decision (P x)}
    (l1 l2 : list A) (x : A) :
  (forall y, y ∈ l1 -> ~ P y) -> P x ->
  list_find P (l1 ++ x :: l2) = Some (length l1, x).
Proof.
  intros Hl1 Hx. apply list_find_Some. split; [by apply list_lookup_middle|].
  split; [done|].
  intros j y Hj Hlt. apply Hl1.
  rewrite lookup_app_l in Hj by done. by eapply list_elem_of_lookup_2.
Qed.

(** [std::remove] on a registry of distinct sessions, asked to remove the
    session of slot [length l1]: the sessions behind it move one slot down,
    the last slot is left over, and the new end is that last slot. *)
Lemma std_remove_registered (l1 l2 : list unique_ptr) (p : unique_ptr) :
  registry_wf (l1 ++ p :: l2) ->
  exists leftover,
    std_remove (l1 ++ p :: l2) (length l1)
    = ((l1 ++ l2) ++ [leftover], length (l1 ++ l2)).
Proof.
  intros Hwf. destruct (registry_wf_split _ _ _ Hwf) as (Hl1 & Hl2 & _ & _).
  unfold std_remove.
  rewrite (list_lookup_middle l1 l2 p (length l1) eq_refl).
  rewrite (list_find_middle _ l1 l2 p).
  2:{ intros y Hy Heq. apply ptr_eqb_true in Heq. by apply (Hl1 y). }
  2:{ by apply ptr_eqb_true. }
  replace (length (l1 ++ p :: l2) - S (length l1))%nat with (length l2)
    by (rewrite length_app; simpl; lia).
  destruct l2 as [|x rest].
  - exists p. simpl. by rewrite !app_nil_r.
  - simpl remove_loop.
    assert ((l1 ++ p :: x :: rest) !! S (length l1) = Some x) as ->.
    { replace (l1 ++ p :: x :: rest) with ((l1 ++ [p]) ++ x :: rest) by reassoc.
      apply list_lookup_middle. rewrite length_app. simpl. lia. }
    rewrite (list_lookup_middle l1 (x :: rest) p (length l1) eq_refl).
    assert (ptr_eqb x p = false) as ->.
    { apply ptr_eqb_false. apply Hl2. left. }
    assert (<[S (length l1) := nullptr]> (<[length l1 := x]> (l1 ++ p :: x :: rest))
            = l1 ++ x :: [] ++ nullptr :: rest) as ->.
    { rewrite (insert_middle l1 (x :: rest) p x (length l1) eq_refl).
      replace (l1 ++ x :: x :: rest) with ((l1 ++ [x]) ++ x :: rest) by reassoc.
      rewrite (insert_middle (l1 ++ [x]) rest x nullptr)
        by (rewrite length_app; simpl; lia).
      reassoc. }
    assert (Forall (fun y => ptr_eqb y x = false) rest) as Hrest.
    { apply Forall_forall. intros y Hy. apply ptr_eqb_false.
      assert (NoDup (get <$> (x :: rest))) as Hnd.
      { destruct Hwf as [Hnd _]. rewrite fmap_app in Hnd.
        apply NoDup_app in Hnd as (_ & _ & Hnd). rewrite fmap_cons in Hnd.
        by apply NoDup_cons in Hnd as [_ Hnd]. }
      rewrite fmap_cons in Hnd. apply NoDup_cons in Hnd as [Hx _].
      intros Heq. apply Hx. rewrite <- Heq. by apply list_elem_of_fmap_2. }
    pose proof (remove_loop_shift rest l1 x [] nullptr Hrest) as Hloop.
    simpl in Hloop.
    replace (length l1 + 1)%nat with (S (length l1)) in Hloop by lia.
    simpl. rewrite Hloop.
    exists nullptr. f_equal.
    + reassoc. by destruct rest.
    + rewrite length_app. simpl. lia.
Qed.

Section RemovalFacts.
Context `{consts : Constants} `{plat : Platform} `{sess : SessionClass}.

Lemma OnConnectionShutdown_registered (f : Feature) (l1 l2 : list unique_ptr)
    (c : SecureTunnelingContext) :
  mContexts f = l1 ++ owns c :: l2 ->
  registry_wf (mContexts f) ->
  OnConnectionShutdown (Npos (this c)) f = Some (set_contexts f (l1 ++ l2)).
Proof.
  intros Hcs Hwf. unfold OnConnectionShutdown. rewrite Hcs in *.
  destruct (registry_wf_split _ _ _ Hwf) as (Hl1 & _ & _ & _).
  rewrite (list_find_middle _ l1 l2 (owns c)); [|exact Hl1|done].
  destruct (std_remove_registered l1 l2 (owns c) Hwf) as [leftover ->].
  unfold erase.
  rewrite (proj2 (Nat.ltb_lt _ _)) by (rewrite (length_app (l1 ++ l2)); simpl; lia).
  by rewrite delete_last.
Qed.

Lemma OnConnectionShutdown_unregistered (f : Feature) (p : N) :
  p ∉ get <$> mContexts f -> OnConnectionShutdown p f = None.
Proof.
  intros Hp. unfold OnConnectionShutdown.
  destruct (list_find _ _) as [[k x]|] eqn:Hfind; [|done].
  apply list_find_Some in Hfind as (Hk & Hx & _).
  exfalso. apply Hp. rewrite <- Hx. apply list_elem_of_fmap_2.
  by eapply list_elem_of_lookup_2.
Qed.

(** C4: when the close callback of a registered session fires, the
    registry loses the slot of that session, found by its address, and
    nothing else: the slots before and behind it are kept as they are and
    in their order, no session of that address is left, and the rest of
    the feature is untouched. *)
Theorem C4_close_callback_removes_that_session (f : Feature)
    (l1 l2 : list unique_ptr) (c : SecureTunnelingContext) :
  mContexts f = l1 ++ owns c :: l2 ->
  registry_wf (mContexts f) ->
  OnConnectionShutdown (Npos (this c)) f = Some (set_contexts f (l1 ++ l2))
  /\ (Npos (this c) ∉ get <$> (l1 ++ l2))
  /\ registry_wf (l1 ++ l2).
Proof.
  intros Hcs Hwf. split; [by apply OnConnectionShutdown_registered|].
  rewrite Hcs in Hwf.
  destruct (registry_wf_split _ _ _ Hwf) as (Hl1 & Hl2 & _ & Hwf').
  split; [|done].
  intros Hin. apply list_elem_of_fmap in Hin as (x & Hx & Hin).
  apply elem_of_app in Hin as [Hin|Hin].
  - by apply (Hl1 x).
  - by apply (Hl2 x).
Qed.
End RemovalFacts.

(** C4 on a registry of three sessions of which the first two were built
    with the very same parameters: the callback of the second removes the
    second and leaves the first. *)
Lemma C4_close_callback_removes_that_session_witness :
  let f := set_contexts fresh_feature
             [owns (session_at 1); owns (session_at 2); owns (session_at 3)] in
  OnConnectionShutdown 2%N f
  = Some (set_contexts f [owns (session_at 1); owns (session_at 3)]).
Proof.
  intros f.
  apply (C4_close_callback_removes_that_session f
           [owns (session_at 1)] [owns (session_at 3)] (session_at 2)).
  - reflexivity.
  - unfold registry_wf. apply (bool_decide_unpack _). by vm_compute.
Defined.

(** C5 (removing a session the registry does not hold is to be a no-op that
    leaves the registry as it is): the code has no such case. Called with
    the address 9 of a session the registry [1; 2] does not hold, or on an
    empty registry, [find_if] gives [end()], which the code dereferences: the
    result is undefined, and the registry is not given back as it was. *)
Theorem C5_unregistered_session_is_undefined :
  OnConnectionShutdown 9%N
    (set_contexts fresh_feature [owns (session_at 1); owns (session_at 2)])
  = None
  /\ OnConnectionShutdown 1%N fresh_feature = None.
Proof. split; reflexivity. Qed.

(** ** Notification handler: validation and registration *)

Lemma IsValidPort_range (p : Z) : IsValidPort p = bool_decide (1 <= p <= 65535).
Proof.
  unfold IsValidPort. case_bool_decide as Hr.
  - apply andb_true_iff. split; apply Z.leb_le; lia.
  - apply andb_false_iff.
    destruct (Z.leb_spec 1 p); [|by left]. right. apply Z.leb_gt. lia.
Qed.

Lemma c_strings_fields (r : SecureTunnelingNotifyResponse) :
  c_strings r = true ->
  (forall m, ClientMode r = Some m -> c_str m = m)
  /\ (forall s others, Services r = Some (s :: others) -> c_str s = s).
Proof.
  unfold c_strings. rewrite !andb_true_iff. intros [[[Hm Hs] _] _]. split.
  - intros m Hr. rewrite Hr in Hm. by apply c_str_no_nul.
  - intros s others Hr. rewrite Hr in Hs. simpl in Hs.
    apply andb_true_iff in Hs as [Hs _]. by apply c_str_no_nul.
Qed.

(** What the handler resolves is what the validator of section 4.2 looks
    at: the normalized name, and the base name. *)
Lemma AppendPostfixToService_Normalize `{consts : Constants} (file : option string)
    (service : string) :
  AppendPostfixToService file service = Normalize file service.
Proof.
  unfold Normalize. destruct (decide (service = "TIVA")) as [->|Hne].
  - rewrite (bool_decide_eq_true_2 ("TIVA" = "TIVA")) by done.
    destruct (decide (link_state file = Some "up")) as [Hup|Hup].
    + rewrite (bool_decide_eq_true_2 _ Hup). by apply AppendPostfixToService_up.
    + rewrite (bool_decide_eq_false_2 _ Hup). by apply AppendPostfixToService_fallback.
  - rewrite (bool_decide_eq_false_2 _ Hne). by apply AppendPostfixToService_other.
Qed.

Lemma base_service_strip (s : string) : base_service s = strip_suffix s.
Proof.
  induction s as [|c r IH]; [done|].
  rewrite base_service_cons. simpl. by rewrite IH.
Qed.

Section HandlerFacts.
Context `{consts : Constants} `{plat : Platform} `{sess : SessionClass}.

(** The handler against the pipeline of section 4.2. *)
Lemma notified_pipeline (w : World) (r : SecureTunnelingNotifyResponse)
    (f : Feature) (mode : string) :
  ClientMode r = Some mode ->
  c_strings r = true ->
  any_duplicate (mContexts f) r = Some false ->
  match first_failing w f r with
  | Some ck =>
      exists f', notified w r f = Some (f', Rejected (rejection_of ck))
                 /\ mContexts f' = mContexts f
  | None =>
      exists f' c,
        notified w r f = Some (f', if connects w then Registered c else Discarded c)
        /\ this c = allocated w
        /\ mContexts f' = if connects w then mContexts f ++ [owns c] else mContexts f
  end.
Proof.
  intros Hmode Hc Hdup.
  destruct (c_strings_fields r Hc) as [Hcm Hcs].
  unfold notified. rewrite Hdup, Hmode, (Hcm mode Hmode).
  unfold first_failing, validation_order. simpl List.find.
  rewrite Hmode, string_eqb_decide.
  destruct (decide (mode = "destination")) as [->|Hne].
  2:{ rewrite (bool_decide_eq_false_2 (Some mode = Some "destination")) by congruence.
      rewrite (bool_decide_eq_false_2 (mode = "destination")) by done.
      simpl. by exists f. }
  rewrite !(bool_decide_eq_true_2 (_ = _)) by done. simpl.
  unfold requested_service.
  destruct (Services r) as [[|first others]|] eqn:Hsv; simpl;
    [by exists f| |by exists f].
  specialize (Hcs first others eq_refl).
  destruct others as [|second others]; simpl; [|by exists f].
  unfold non_empty_field.
  destruct (ClientAccessToken r) as [token|] eqn:Htok; simpl; [|by exists f].
  destruct (string_empty token) eqn:Hte; simpl; [by exists f|].
  destruct (Region r) as [reg|] eqn:Hreg; simpl; [|by exists f].
  destruct (string_empty reg) eqn:Hre; simpl; [by exists f|].
  rewrite Hcs.
  rewrite <- (AppendPostfixToService_Normalize (operstate w) first).
  rewrite <- (base_service_strip first).
  assert (GetAddressFromService (operstate w) first (mServiceToAddressMap f)
          = (default EmptyString
               (consulted (mServiceToAddressMap f)
                  !! AppendPostfixToService (operstate w) first),
             consulted (mServiceToAddressMap f))) as ->.
  { unfold GetAddressFromService, consulted. by destruct (_ !! _). }
  assert (GetPortFromService (base_service first) (mServiceToPortMap f)
          = (default 0 (consulted_ports (mServiceToPortMap f) !! base_service first),
             consulted_ports (mServiceToPortMap f))) as ->.
  { unfold GetPortFromService, consulted_ports. by destruct (_ !! _). }
  destruct (IsValidAddress _) eqn:Hva; simpl.
  2:{ eexists. split; reflexivity. }
  rewrite IsValidPort_range.
  case_bool_decide as Hvp; simpl.
  2:{ eexists. split; reflexivity. }
  destruct (connects w); simpl; eexists _, _; repeat split; simpl; reflexivity.
Qed.

(** X18: on a notification that carries a client mode and is no duplicate,
    the handler fails exactly the first check, in the order client mode,
    services non-empty, a single service, access token, region, address of
    the normalized service, port of the base service name, that the
    notification does not pass, and ends there: the log line is the one of
    that check, no session object is built and the registry is the one it
    was. When every check passes, a session is built. *)
Theorem validation_follows_order (w : World) (r : SecureTunnelingNotifyResponse)
    (f : Feature) (mode : string) :
  ClientMode r = Some mode ->
  c_strings r = true ->
  any_duplicate (mContexts f) r = Some false ->
  match first_failing w f r with
  | Some ck =>
      exists f',
        OnSubscribeToTunnelsNotifyResponse w (Some r) 0 f
        = Some (f', Rejected (rejection_of ck))
        /\ mContexts f' = mContexts f
  | None =>
      exists f' c,
        OnSubscribeToTunnelsNotifyResponse w (Some r) 0 f
        = Some (f', if connects w then Registered c else Discarded c)
  end.
Proof.
  intros Hmode Hc Hdup.
  pose proof (notified_pipeline w r f mode Hmode Hc Hdup) as Hp.
  unfold OnSubscribeToTunnelsNotifyResponse. simpl.
  destruct (first_failing w f r) as [ck|].
  - exact Hp.
  - destruct Hp as (f' & c & Hn & _). by exists f', c.
Qed.

(** C2: for a notification that is no duplicate and passes every check,
    the handler builds one session and asks it to connect once; the
    session is appended to the registry when the connect succeeds, and
    when it fails the session is dropped and the registry is the one it
    was. So the registry has gained the session exactly when the connect
    succeeded. *)
Theorem C2_registered_iff_connected (w : World) (r : SecureTunnelingNotifyResponse)
    (f : Feature) :
  c_strings r = true ->
  any_duplicate (mContexts f) r = Some false ->
  first_failing w f r = None ->
  exists f' c,
    OnSubscribeToTunnelsNotifyResponse w (Some r) 0 f
    = Some (f', if connects w then Registered c else Discarded c)
    /\ this c = allocated w
    /\ mContexts f' = (if connects w then mContexts f ++ [owns c] else mContexts f)
    /\ (mContexts f' = mContexts f ++ [owns c] <-> connects w = true)
    /\ (mContexts f' = mContexts f <-> connects w = false).
Proof.
  intros Hc Hdup Hpass.
  assert (ClientMode r = Some "destination") as Hmode.
  { unfold first_failing, validation_order in Hpass. simpl in Hpass.
    destruct (decide (ClientMode r = Some "destination")) as [Hm|Hm]; [done|].
    by rewrite (bool_decide_eq_false_2 (ClientMode r = Some "destination")) in Hpass. }
  pose proof (notified_pipeline w r f "destination" Hmode Hc Hdup) as Hp.
  rewrite Hpass in Hp. destruct Hp as (f' & c & Hn & Hthis & Hcs).
  exists f', c. unfold OnSubscribeToTunnelsNotifyResponse. simpl.
  repeat split; try done.
  - intros Heq. destruct (connects w); [done|].
    rewrite Hcs in Heq. apply (f_equal length) in Heq.
    rewrite length_app in Heq. simpl in Heq. lia.
  - intros Hok. by rewrite Hcs, Hok.
  - intros Heq. destruct (connects w); [|done].
    rewrite Hcs in Heq. apply (f_equal length) in Heq.
    rewrite length_app in Heq. simpl in Heq. lia.
  - intros Hok. by rewrite Hcs, Hok.
Qed.

(** C3: a notification without a client mode that gets past the duplicate
    scan. The validator of section 4.2 turns it down at its first check,
    as its client mode is not "destination"; the handler reads
    [response->ClientMode] without asking [has_value()] first, as it does
    for the services, the access token and the region, and dereferences an
    empty optional: what it does then is undefined, where the rejection
    "unexpected client mode" with the registry left alone is due. *)
Theorem C3_missing_client_mode_is_undefined (w : World)
    (r : SecureTunnelingNotifyResponse) (f : Feature) :
  ClientMode r = None ->
  any_duplicate (mContexts f) r = Some false ->
  first_failing w f r = Some CheckClientMode
  /\ OnSubscribeToTunnelsNotifyResponse w (Some r) 0 f = None.
Proof.
  intros Hmode Hdup. split.
  - unfold first_failing, validation_order. simpl. by rewrite Hmode.
  - unfold OnSubscribeToTunnelsNotifyResponse, notified. simpl.
    by rewrite Hdup, Hmode.
Qed.
End HandlerFacts.

(** ** Session registry: duplicates *)

Section ScanFacts.
Context `{sess : SessionClass}.



(** On a registry without a null slot the scan is defined. *)
Lemma any_duplicate_defined (cs : list unique_ptr) (r : SecureTunnelingNotifyResponse) :
  0%N ∉ get <$> cs -> is_Some (any_duplicate cs r).
Proof.
  induction cs as [|[|c] cs IH]; simpl; intros Hnull; [done| |].
  - exfalso. apply Hnull. left.
  - destruct (IsDuplicateNotification c r); [done|].
    apply IH. intros Hin. apply Hnull. by right.
Qed.
End ScanFacts.

Section ReachableFacts.
Context `{consts : Constants} `{plat : Platform} `{sess : SessionClass}.

(** What a run of the handler does to the registry, by its outcome: only a
    run that ends in [Registered] changes it, by appending the new session. *)
Lemma notified_registry (w : World) (r : SecureTunnelingNotifyResponse)
    (f f' : Feature) (o : Outcome) :
  notified w r f = Some (f', o) ->
  match o with
  | Registered c =>
      mContexts f' = mContexts f ++ [owns c]
      /\ this c = allocated w
      /\ any_duplicate (mContexts f) r = Some false
      /\ connects w = true
  | _ => mContexts f' = mContexts f
  end.
Proof.
  unfold notified. intros Hn.
  repeat case_match; simplify_eq; simpl; try done.
Qed.

Lemma handler_outcome (w : World) (response : option SecureTunnelingNotifyResponse)
    (ioErr : Z) (f f' : Feature) (o : Outcome) :
  OnSubscribeToTunnelsNotifyResponse w response ioErr f = Some (f', o) ->
  match o with
  | Registered c => mContexts f' = mContexts f ++ [owns c] /\ connects w = true
  | _ => mContexts f' = mContexts f
  end.
Proof.
  unfold OnSubscribeToTunnelsNotifyResponse. intros Hn.
  destruct (Z.eqb ioErr 0); [|by simplify_eq].
  destruct response as [r|]; [|by simplify_eq].
  apply notified_registry in Hn. destruct o; try done. tauto.
Qed.

Lemma handler_registry (w : World) (response : option SecureTunnelingNotifyResponse)
    (ioErr : Z) (f f' : Feature) (o : Outcome) :
  OnSubscribeToTunnelsNotifyResponse w response ioErr f = Some (f', o) ->
  mContexts f' = mContexts f
  \/ exists c r, response = Some r
                 /\ mContexts f' = mContexts f ++ [owns c]
                 /\ this c = allocated w
                 /\ any_duplicate (mContexts f) r = Some false.
Proof.
  unfold OnSubscribeToTunnelsNotifyResponse. intros Hn.
  destruct (Z.eqb ioErr 0); [|simplify_eq; by left].
  destruct response as [r|]; [|simplify_eq; by left].
  apply notified_registry in Hn. destruct o; try (by left).
  right. exists c, r. tauto.
Qed.

(** On a registry without a null slot the handler is defined for every
    notification that carries a client mode, and [stop] is defined. *)
Lemma notified_defined (w : World) (r : SecureTunnelingNotifyResponse) (f : Feature) :
  0%N ∉ get <$> mContexts f -> is_Some (ClientMode r) ->
  is_Some (notified w r f).
Proof.
  intros Hnull [mode Hmode]. unfold notified.
  destruct (any_duplicate_defined (mContexts f) r Hnull) as [b ->].
  rewrite Hmode. repeat case_match; done.
Qed.

Lemma registry_wf_snoc (cs : list unique_ptr) (c : SecureTunnelingContext) :
  registry_wf cs ->
  Npos (this c) ∉ get <$> cs ->
  registry_wf (cs ++ [owns c]).
Proof.
  intros [Hnd Hnull] Hfresh. split.
  - rewrite fmap_app. apply NoDup_app. split; [done|]. split.
    + intros x Hx Hin. simpl in Hin. apply list_elem_of_singleton in Hin.
      subst x. by apply Hfresh.
    + simpl. apply NoDup_singleton.
  - rewrite fmap_app. intros Hin. apply elem_of_app in Hin as [Hin|Hin]; [done|].
    simpl in Hin. by apply list_elem_of_singleton in Hin.
Qed.

Lemma shutdown_registry (p : N) (f f' : Feature) :
  registry_wf (mContexts f) ->
  OnConnectionShutdown p f = Some f' ->
  exists l1 l2 c, mContexts f = l1 ++ owns c :: l2
                  /\ p = Npos (this c)
                  /\ f' = set_contexts f (l1 ++ l2).
Proof.
  intros Hwf Hs.
  destruct (list_find (fun c => get c = p) (mContexts f)) as [[k x]|] eqn:Hfind.
  2:{ unfold OnConnectionShutdown in Hs. by rewrite Hfind in Hs. }
  apply list_find_Some in Hfind as (Hk & Hx & _).
  pose proof (take_drop_middle _ _ _ Hk) as Hsplit.
  destruct x as [|c].
  { exfalso. destruct Hwf as [_ Hnull]. apply Hnull.
    change 0%N with (get nullptr). apply list_elem_of_fmap_2.
    by eapply list_elem_of_lookup_2. }
  exists (take k (mContexts f)), (drop (S k) (mContexts f)), c.
  split; [done|]. split; [done|].
  simpl in Hx. subst p.
  rewrite (OnConnectionShutdown_registered f _ _ c (eq_sym Hsplit) Hwf) in Hs.
  by simplify_eq.
Qed.

Lemma call_each_defined (cs : list unique_ptr) :
  0%N ∉ get <$> cs -> call_each cs = Some tt.
Proof.
  induction cs as [|[|c] cs IH]; simpl; [done| |].
  - intros Hnull. exfalso. apply Hnull. left.
  - intros Hnull. apply IH. intros Hin. apply Hnull. by right.
Qed.

Lemma stop_defined (f : Feature) : 0%N ∉ get <$> mContexts f -> stop f = Some f.
Proof. intros Hnull. unfold stop. by rewrite call_each_defined. Qed.

Lemma boot_registry_inv (w : World) (config : PlainConfig) (f : Feature) :
  boot w config = Some f -> registry_inv f.
Proof.
  unfold boot, init, LoadFromConfig, registry_inv.
  destruct (thingName config) as [name|]; [|done].
  destruct (subscribeNotification (tunneling config)) eqn:Hmode.
  - unfold start, RunSecureTunneling. simpl. intros [= <-]. simpl.
    split; simpl; [apply NoDup_nil_2|apply not_elem_of_nil].
  - destruct (destinationAccessToken (tunneling config)) as [token|]; [|done].
    destruct (region (tunneling config)) as [reg|]; [|done].
    destruct (address (tunneling config)) as [addr|]; [|done].
    destruct (port (tunneling config)) as [prt|]; [|done].
    unfold start, RunSecureTunneling. simpl. intros [= <-]. simpl.
    split; simpl; [apply NoDup_singleton|].
    by intros Hin%list_elem_of_singleton.
Qed.

(** Every state the feature reaches satisfies the registry invariant. *)
Lemma reachable_registry_inv (f : Feature) : reachable f -> registry_inv f.
Proof.
  induction 1 as [w config f Hb | f w response ioErr f' o Hr IH Hsub Hfresh Hn
                  | f p f' Hr IH Hs | f f' Hr IH Hs ].
  - by eapply boot_registry_inv.
  - unfold registry_inv in *.
    apply handler_registry in Hn as [->|(c & r & _ & -> & Hthis & Hdup)]; [done|].
    apply registry_wf_snoc; [done|].
    unfold live in Hfresh. by rewrite Hthis.
  - destruct (shutdown_registry p f f' IH Hs) as (l1 & l2 & c & Hcs & _ & ->).
    unfold registry_inv in *. simpl. rewrite Hcs in IH.
    by destruct (registry_wf_split _ _ _ IH) as (_ & _ & _ & ?).
  - unfold stop in Hs. destruct (call_each (mContexts f)); by simplify_eq.
Qed.
End ReachableFacts.

(** ** Reachable states *)

Lemma serving_ssh_reachable :
  reachable (consts := sample_constants) (plat := sample_platform)
      (sess := sample_sessions) serving_ssh.
Proof.
  apply (reach_notify (consts := sample_constants) (plat := sample_platform)
           (sess := sample_sessions)
           subscribed_feature (world None 1 true) (Some ssh_request) 0
           serving_ssh (Registered (ssh_session 1))).
  - by apply (reach_boot (consts := sample_constants) (plat := sample_platform)
                (sess := sample_sessions)
                (world None 1 true) subscribing_config).
  - reflexivity.
  - apply not_elem_of_nil.
  - by vm_compute.
Defined.

(** C3 at a request without a client mode, on the feature that just
    subscribed: the handler is undefined, where without a region, the next
    field it reads, it rejects as it is to. *)
Lemma C3_missing_client_mode_is_undefined_witness :
  first_failing (consts := sample_constants) (plat := sample_platform)
    (world None 1 true) subscribed_feature modeless_request = Some CheckClientMode
  /\ OnSubscribeToTunnelsNotifyResponse (consts := sample_constants) (plat := sample_platform)
       (sess := sample_sessions)
       (world None 1 true) (Some modeless_request) 0 subscribed_feature = None
  /\ OnSubscribeToTunnelsNotifyResponse (consts := sample_constants) (plat := sample_platform)
       (sess := sample_sessions)
       (world None 1 true)
       (Some {| ClientMode := Some "destination"; Services := Some ["SSH"];
                ClientAccessToken := Some "tok"; Region := None |})
       0 subscribed_feature
     = Some (subscribed_feature, Rejected EmptyRegion).
Proof.
  destruct (C3_missing_client_mode_is_undefined (consts := sample_constants)
              (plat := sample_platform) (sess := sample_sessions)
              (world None 1 true) modeless_request subscribed_feature eq_refl eq_refl)
    as [Hfirst Hnone].
  split; [exact Hfirst|]. split; [exact Hnone|]. reflexivity.
Defined.

(** X18 on the feature that just subscribed: a source-mode request fails the
    first check, a request for two services the third, and a request for an
    unknown service the address check; the registry stays empty. *)
Lemma validation_follows_order_witness :
  (exists f',
     OnSubscribeToTunnelsNotifyResponse (consts := sample_constants) (plat := sample_platform)
      (sess := sample_sessions)
       (world None 1 true) (Some source_request) 0 subscribed_feature
     = Some (f', Rejected UnexpectedClientMode)
     /\ mContexts f' = [])
  /\ (exists f',
        OnSubscribeToTunnelsNotifyResponse (consts := sample_constants) (plat := sample_platform)
      (sess := sample_sessions)
          (world None 1 true) (Some two_services_request) 0 subscribed_feature
        = Some (f', Rejected MultiPortRequest)
        /\ mContexts f' = [])
  /\ (exists f',
        OnSubscribeToTunnelsNotifyResponse (consts := sample_constants) (plat := sample_platform)
      (sess := sample_sessions)
          (world None 1 true) (Some unknown_service_request) 0 subscribed_feature
        = Some (f', Rejected InvalidAddress)
        /\ mContexts f' = []).
Proof.
  split; [|split].
  - apply (validation_follows_order (consts := sample_constants) (plat := sample_platform)
             (sess := sample_sessions)
             (world None 1 true) source_request subscribed_feature "source");
      reflexivity.
  - apply (validation_follows_order (consts := sample_constants) (plat := sample_platform)
             (sess := sample_sessions)
             (world None 1 true) two_services_request subscribed_feature "destination");
      reflexivity.
  - pose proof (validation_follows_order (consts := sample_constants) (plat := sample_platform)
                  (sess := sample_sessions)
                  (world None 1 true) unknown_service_request subscribed_feature
                  "destination" eq_refl eq_refl eq_refl) as Hp.
    assert (first_failing (consts := sample_constants) (plat := sample_platform)
              (world None 1 true) subscribed_feature unknown_service_request
            = Some CheckAddress) as Hff by (by vm_compute).
    rewrite Hff in Hp. exact Hp.
Defined.

(** C2 on the feature that just subscribed and the SSH request: with a
    connect that succeeds the registry holds the new session, with one that
    fails it stays empty. *)
Lemma C2_registered_iff_connected_witness :
  (exists f' c,
     OnSubscribeToTunnelsNotifyResponse (consts := sample_constants) (plat := sample_platform)
      (sess := sample_sessions)
       (world None 1 true) (Some ssh_request) 0 subscribed_feature
     = Some (f', Registered c)
     /\ mContexts f' = [owns c])
  /\ (exists f' c,
        OnSubscribeToTunnelsNotifyResponse (consts := sample_constants) (plat := sample_platform)
      (sess := sample_sessions)
          (world None 1 false) (Some ssh_request) 0 subscribed_feature
        = Some (f', Discarded c)
        /\ mContexts f' = []).
Proof.
  assert (forall ok, first_failing (consts := sample_constants) (plat := sample_platform)
                       (world None 1 ok) subscribed_feature ssh_request = None) as Hpass
    by (intros [|]; by vm_compute).
  split.
  - destruct (C2_registered_iff_connected (consts := sample_constants) (plat := sample_platform)
      (sess := sample_sessions)
                (world None 1 true) ssh_request subscribed_feature
                eq_refl eq_refl (Hpass true))
      as (f' & c & Hn & _ & Hcs & _).
    by exists f', c.
  - destruct (C2_registered_iff_connected (consts := sample_constants) (plat := sample_platform)
      (sess := sample_sessions)
                (world None 1 false) ssh_request subscribed_feature
                eq_refl eq_refl (Hpass false))
      as (f' & c & Hn & _ & Hcs & _).
    by exists f', c.
Defined.

(** * Further properties of the code *)

(** ** Strings *)

Lemma last_char_app (a b : string) : b ≠ EmptyString -> last_char (a +:+ b) = last_char b.
Proof.
  intros Hb. induction a as [|c a IH]; [done|].
  simpl. rewrite IH. destruct (a +:+ b) eqn:Hab; [|done].
  destruct a; simpl in Hab; [by subst|done].
Qed.

Lemma pretty_N_char_digit (x : N) : is_digit (pretty_N_char x) = true.
Proof. unfold pretty_N_char. by repeat case_match. Qed.

Lemma pretty_N_go_last (x : N) :
  forall s d, last_char s = Some d -> last_char (pretty_N_go x s) = Some d.
Proof.
  induction (N.lt_wf_0 x) as [x _ IH]. intros s d Hs.
  destruct (decide (x = 0)%N) as [->|Hx]; [by rewrite pretty_N_go_0|].
  rewrite pretty_N_go_step by lia.
  apply IH; [apply N.div_lt; lia|].
  simpl. by destruct s.
Qed.

Lemma pretty_N_last_digit (x : N) :
  exists d, last_char (pretty x) = Some d /\ is_digit d = true.
Proof.
  unfold pretty, pretty_N. case_decide as Hx; [by eexists|].
  rewrite pretty_N_go_step by lia.
  exists (pretty_N_char (x `mod` 10)). split; [|apply pretty_N_char_digit].
  by apply pretty_N_go_last.
Qed.

Lemma pretty_Z_last_digit (x : Z) :
  exists d, last_char (pretty x) = Some d /\ is_digit d = true.
Proof.
  destruct x as [|p|p]; unfold pretty, pretty_Z.
  - by eexists.
  - apply (pretty_N_last_digit (Npos p)).
  - destruct (pretty_N_last_digit (Npos p)) as (d & Hd & Hdig).
    exists d. split; [|done].
    rewrite last_char_app; [done|]. intros He.
    change (pretty p) with (pretty (Npos p)) in He. by rewrite He in Hd.
Qed.

(** ** The address and port tables *)

Section TableFacts.
Context `{consts : Constants}.

Lemma interlake_key_inj (i j : Z) : interlake_key i = interlake_key j -> i = j.
Proof.
  unfold interlake_key. intros Heq.
  apply (inj (String.app TIVA_SERVICE_ID_PREFIX)) in Heq.
  by apply (inj pretty) in Heq.
Qed.

Lemma interlake_key_last_digit (j : Z) :
  exists d, last_char (interlake_key j) = Some d /\ is_digit d = true.
Proof.
  destruct (pretty_Z_last_digit j) as (d & Hd & Hdig).
  exists d. split; [|done]. unfold interlake_key.
  rewrite last_char_app; [done|]. intros He. by rewrite He in Hd.
Qed.

Lemma interlake_lookup_other (n : nat) :
  forall (i : Z) (m : gmap string string) (k : string),
    (forall j, i <= j < i + Z.of_nat n -> k ≠ interlake_key j) ->
    interlake_from n i m !! k = m !! k.
Proof.
  induction n as [|n IH]; intros i m k Hk; [done|].
  simpl. rewrite IH by (intros j Hj; apply Hk; lia).
  apply lookup_insert_ne. intros Heq. apply (Hk i); [lia|]. by rewrite <- Heq.
Qed.

Lemma interlake_lookup_key (n : nat) :
  forall (i : Z) (m : gmap string string) (j : Z),
    i <= j < i + Z.of_nat n ->
    interlake_from n i m !! interlake_key j = Some (interlake_address j).
Proof.
  induction n as [|n IH]; intros i m j Hj; [lia|].
  simpl. destruct (decide (j = i)) as [->|Hne].
  - rewrite interlake_lookup_other.
    + apply lookup_insert_eq.
    + intros j Hj' Heq. apply interlake_key_inj in Heq. lia.
  - apply IH. lia.
Qed.

Lemma to_int_id (x : Z) : is_int x = true -> to_int x = x.
Proof.
  unfold is_int, to_int. rewrite andb_true_iff, !Z.leb_le. intros [Hlo Hhi].
  rewrite Z.mod_small; lia.
Qed.

(** X1: after [AddInterlakeEndpoints] the table maps, for every [j] from 0
    up to [MAX_INTERLAKE_SYSTEM_SIZE] (excluded), the service name "prefix
    followed by [j]" to the address "address prefix followed by the host
    number", the [int] sum [MASTER_SYSTEM_HOST_ID + j]: no round overwrites
    what another wrote. The host number is the sum of the two numbers as
    long as that sum is an [int], and the [int] the sum wraps to beyond.
    Every other key keeps the entry it had, or stays absent. *)
Theorem interlake_endpoints (m : gmap string string) :
  (forall j, 0 <= j < MAX_INTERLAKE_SYSTEM_SIZE ->
     AddInterlakeEndpoints m !! interlake_key j = Some (interlake_address j))
  /\ (forall j, interlake_address j
                = TIVA_TCP_IP_ADDRESS_PREFIX
                  +:+ pretty (if is_int (MASTER_SYSTEM_HOST_ID + j)
                              then MASTER_SYSTEM_HOST_ID + j
                              else to_int (MASTER_SYSTEM_HOST_ID + j)))
  /\ (forall k, (forall j, 0 <= j < MAX_INTERLAKE_SYSTEM_SIZE -> k ≠ interlake_key j) ->
        AddInterlakeEndpoints m !! k = m !! k).
Proof.
  unfold AddInterlakeEndpoints. split; [|split].
  - intros j Hj. apply interlake_lookup_key. lia.
  - intros j. unfold interlake_address.
    destruct (is_int (MASTER_SYSTEM_HOST_ID + j)) eqn:Hint; [|done].
    by rewrite to_int_id.
  - intros k Hk. apply interlake_lookup_other. intros j Hj. apply Hk. lia.
Qed.

(** A key that does not end in a digit is none of the interlake keys. *)
Lemma not_interlake_key (k : string) (c : Ascii.ascii) :
  last_char k = Some c -> is_digit c = false -> forall j, k ≠ interlake_key j.
Proof.
  intros Hk Hc j Heq. destruct (interlake_key_last_digit j) as (d & Hd & Hdig).
  rewrite <- Heq in Hd. congruence.
Qed.

Lemma address_table_fixed :
  address_table !! "SSH" = Some EMC_NETWORK_BRIDGE_IP_ADDRESS
  /\ address_table !! "GW" = Some EMC_NETWORK_BRIDGE_IP_ADDRESS
  /\ address_table !! "TIVA_TCP" = Some TIVA_TCP_IP_ADDRESS.
Proof.
  unfold address_table, AddInterlakeEndpoints. repeat split.
  - rewrite interlake_lookup_other; [done|].
    intros j _. by eapply not_interlake_key.
  - rewrite interlake_lookup_other; [done|].
    intros j _. by eapply not_interlake_key.
  - rewrite interlake_lookup_other; [done|].
    intros j _. by eapply not_interlake_key.
Qed.

Lemma address_table_not_empty : address_table ≠ ∅.
Proof.
  intros He. destruct address_table_fixed as [Hssh _].
  rewrite He in Hssh. by rewrite lookup_empty in Hssh.
Qed.

Lemma port_table_not_empty : port_table ≠ ∅.
Proof. unfold port_table. apply insert_non_empty. Qed.

Lemma GetAddressFromService_consulted (file : option string) (s : string)
    (m : gmap string string) :
  GetAddressFromService file s m
  = (default EmptyString (consulted m !! AppendPostfixToService file s), consulted m).
Proof. unfold GetAddressFromService, consulted. by destruct (_ !! _). Qed.

Lemma GetPortFromService_consulted (s : string) (m : gmap string Z) :
  GetPortFromService s m = (default 0 (consulted_ports m !! s), consulted_ports m).
Proof. unfold GetPortFromService, consulted_ports. by destruct (_ !! _). Qed.

Lemma consulted_empty : consulted ∅ = address_table.
Proof. unfold consulted. by rewrite decide_True. Qed.

(** X2: whatever the constants are, the address table resolves "SSH" and
    "GW" to the network bridge address and "TIVA_TCP" to the TCP address of
    the bus: the interlake entries, whose names end in a digit, never take
    their place. So on a table not yet filled the bus service resolves to
    the TCP address when the link-state file says "up". *)
Theorem fixed_services_resolve (file : option string) :
  (GetAddressFromService file "SSH" ∅).1 = EMC_NETWORK_BRIDGE_IP_ADDRESS
  /\ (GetAddressFromService file "GW" ∅).1 = EMC_NETWORK_BRIDGE_IP_ADDRESS
  /\ (GetAddressFromService file "TIVA_TCP" ∅).1 = TIVA_TCP_IP_ADDRESS
  /\ (link_state file = Some "up" ->
      (GetAddressFromService file "TIVA" ∅).1 = TIVA_TCP_IP_ADDRESS).
Proof.
  destruct address_table_fixed as (Hssh & Hgw & Htcp).
  rewrite !GetAddressFromService_consulted, consulted_empty. simpl.
  repeat split.
  - rewrite AppendPostfixToService_other by done. by rewrite Hssh.
  - rewrite AppendPostfixToService_other by done. by rewrite Hgw.
  - rewrite AppendPostfixToService_other by done. by rewrite Htcp.
  - intros Hup. rewrite (AppendPostfixToService_up file Hup). by rewrite Htcp.
Qed.

Lemma consulted_settled (m : gmap string string) : consulted (consulted m) = consulted m.
Proof.
  unfold consulted. destruct (decide (m = ∅)) as [->|Hne].
  - by rewrite decide_False by apply address_table_not_empty.
  - by rewrite decide_False.
Qed.

Lemma consulted_ports_settled (m : gmap string Z) :
  consulted_ports (consulted_ports m) = consulted_ports m.
Proof.
  unfold consulted_ports. destruct (decide (m = ∅)) as [->|Hne].
  - by rewrite decide_False by apply port_table_not_empty.
  - by rewrite decide_False.
Qed.

(** X3: the tables are filled once. The table a call of
    [GetAddressFromService] leaves behind is not empty, a later call leaves
    it as it is, and the later call answers what it would have answered on
    the table the first call found; the same holds for
    [GetPortFromService]. *)
Theorem tables_filled_once (file1 file2 : option string) (s1 s2 : string)
    (m : gmap string string) (pm : gmap string Z) :
  let m1 := (GetAddressFromService file1 s1 m).2 in
  let pm1 := (GetPortFromService s1 pm).2 in
  m1 ≠ ∅
  /\ GetAddressFromService file2 s2 m1 = ((GetAddressFromService file2 s2 m).1, m1)
  /\ pm1 ≠ ∅
  /\ GetPortFromService s2 pm1 = ((GetPortFromService s2 pm).1, pm1).
Proof.
  simpl. rewrite !GetAddressFromService_consulted, !GetPortFromService_consulted. simpl.
  rewrite consulted_settled, consulted_ports_settled. repeat split.
  - unfold consulted. case_decide; [apply address_table_not_empty|done].
  - unfold consulted_ports. case_decide; [apply port_table_not_empty|done].
Qed.
End TableFacts.

(** ** Service names *)

Lemma base_service_no_underscore (s : string) : no_underscore (base_service s) = true.
Proof.
  induction s as [|c r IH]; [done|].
  rewrite base_service_cons. destruct (Ascii.eqb c underscore) eqn:Hc; [done|].
  cbn [no_underscore]. by rewrite Hc.
Qed.

Lemma base_service_id (s : string) : no_underscore s = true -> base_service s = s.
Proof.
  induction s as [|c r IH]; [done|].
  cbn [no_underscore]. rewrite base_service_cons.
  destruct (Ascii.eqb c underscore); [done|].
  intros Hr. by rewrite IH.
Qed.

Lemma base_service_app (b x : string) :
  no_underscore b = true -> base_service (b +:+ String underscore x) = b.
Proof.
  induction b as [|c r IH].
  - intros _. change (EmptyString +:+ String underscore x) with (String underscore x).
    by rewrite base_service_cons, Ascii.eqb_refl.
  - change (String c r +:+ String underscore x)
      with (String c (r +:+ String underscore x)).
    cbn [no_underscore]. rewrite base_service_cons.
    destruct (Ascii.eqb c underscore); [done|].
    intros Hr. by rewrite IH.
Qed.

(** X4: the port key ([service.substr(0, service.find("_"))]) of a name
    "base, underscore, anything" is the base when the base has no underscore;
    a name without underscore is its own key; the key never holds an
    underscore, and taking the key of a key changes nothing. *)
Theorem base_service_strips_suffix (b x s : string) :
  (no_underscore b = true -> base_service (b +:+ String underscore x) = b)
  /\ (no_underscore s = true -> base_service s = s)
  /\ no_underscore (base_service s) = true
  /\ base_service (base_service s) = base_service s.
Proof.
  split; [apply base_service_app|]. split; [apply base_service_id|].
  split; [apply base_service_no_underscore|].
  apply base_service_id, base_service_no_underscore.
Qed.

Lemma AppendPostfixToService_cases (file : option string) (s : string) :
  (s ≠ "TIVA" /\ AppendPostfixToService file s = s)
  \/ (s = "TIVA" /\ (AppendPostfixToService file s = "TIVA_TCP"
                     \/ AppendPostfixToService file s = "TIVA_RS485")).
Proof.
  destruct (decide (s = "TIVA")) as [->|Hne].
  - right. split; [done|].
    destruct (decide (link_state file = Some "up")) as [Hup|Hup].
    + left. by apply AppendPostfixToService_up.
    + right. by apply AppendPostfixToService_fallback.
  - left. split; [done|]. by apply AppendPostfixToService_other.
Qed.

(** X5: the handler looks the address up under the normalized name and the
    port under the key of the requested name; both agree, as the key of the
    normalized name is the key of the requested name. Normalizing a
    normalized name changes nothing, whatever the link state is by then. *)
Theorem normalization_keeps_port_key (file file' : option string) (s : string) :
  base_service (AppendPostfixToService file s) = base_service s
  /\ AppendPostfixToService file' (AppendPostfixToService file s)
     = AppendPostfixToService file s.
Proof.
  destruct (AppendPostfixToService_cases file s) as [[Hne ->]|[-> [->| ->]]].
  - split; [done|]. by apply AppendPostfixToService_other.
  - split; [done|]. by apply AppendPostfixToService_other.
  - split; [done|]. by apply AppendPostfixToService_other.
Qed.

(** ** The link-state file *)

Lemma first_line_app (line rest : string) :
  no_lf line = true -> first_line (line +:+ String line_feed rest) = line.
Proof.
  induction line as [|c r IH].
  - intros _. change (EmptyString +:+ String line_feed rest) with (String line_feed rest).
    cbn [first_line]. by rewrite Ascii.eqb_refl.
  - change (String c r +:+ String line_feed rest)
      with (String c (r +:+ String line_feed rest)).
    cbn [no_lf first_line]. destruct (Ascii.eqb c line_feed); [done|].
    intros Hr. by rewrite IH.
Qed.

Lemma first_line_whole (line : string) : no_lf line = true -> first_line line = line.
Proof.
  induction line as [|c r IH]; simpl; [done|].
  destruct (Ascii.eqb c line_feed); [done|]. simpl. intros Hr. by rewrite IH.
Qed.

(** X6: of the link-state file only the first line counts, and it counts as
    a whole: with a first line [line] (ended by a line feed, whatever
    follows, or being all of a file without line feed), the bus service
    becomes "TIVA_TCP" when [line] is "up" and "TIVA_RS485" for every other
    line. *)
Theorem first_line_decides (line rest : string) :
  no_lf line = true ->
  AppendPostfixToService (Some (line +:+ String line_feed rest)) "TIVA"
  = (if decide (line = "up") then "TIVA_TCP" else "TIVA_RS485")
  /\ AppendPostfixToService (Some line) "TIVA"
     = (if decide (line = "up") then "TIVA_TCP" else "TIVA_RS485").
Proof.
  intros Hline. split.
  - assert (link_state (Some (line +:+ String line_feed rest)) = Some line) as Hls.
    { unfold link_state, getline. rewrite first_line_app by done. by destruct line. }
    case_decide as Hup.
    + apply AppendPostfixToService_up. by rewrite Hls, Hup.
    + apply AppendPostfixToService_fallback. rewrite Hls. congruence.
  - case_decide as Hup.
    + by subst line.
    + apply AppendPostfixToService_fallback. unfold link_state, getline.
      destruct (string_empty line); [done|].
      rewrite first_line_whole by done. congruence.
Qed.

(** ** Ports *)

Section PortFacts.
Context `{consts : Constants}.

Lemma to_uint16_range (x : Z) : 0 <= to_uint16 x < 65536.
Proof. unfold to_uint16. apply Z.mod_pos_bound. lia. Qed.

Lemma port_table_lookup (s : string) (p : Z) :
  port_table !! s = Some p ->
  (s = "SSH" /\ p = to_uint16 SSH_TCP_PORT)
  \/ (s = "GW" /\ p = to_uint16 GW_TCP_PORT)
  \/ (s = "TIVA" /\ p = to_uint16 TIVA_TCP_PORT).
Proof.
  unfold port_table. intros Hp.
  apply lookup_insert_Some in Hp as [[<- <-]|[_ Hp]]; [by right; right|].
  apply lookup_insert_Some in Hp as [[<- <-]|[_ Hp]]; [by right; left|].
  apply lookup_insert_Some in Hp as [[<- <-]|[_ Hp]]; [by left|].
  by rewrite lookup_empty in Hp.
Qed.

(** X7: on a port table that is empty or filled, [GetPortFromService]
    followed by [IsValidPort] accepts a name exactly when the filled table
    holds it with a port other than 0; a name other than "SSH", "GW" and
    "TIVA" gets port 0 and is turned down, and so is a name whose port
    constant is a multiple of 65536. *)
Theorem port_accepted_iff_listed (s : string) (m : gmap string Z) :
  m = ∅ \/ m = port_table ->
  (IsValidPort (GetPortFromService s m).1 = true
   <-> exists p, port_table !! s = Some p /\ p ≠ 0)
  /\ (s ≠ "SSH" -> s ≠ "GW" -> s ≠ "TIVA" ->
      (GetPortFromService s m).1 = 0 /\ IsValidPort (GetPortFromService s m).1 = false).
Proof.
  intros Hm.
  assert (consulted_ports m = port_table) as Hc.
  { unfold consulted_ports. destruct Hm as [->| ->].
    - by rewrite decide_True.
    - by rewrite decide_False by apply port_table_not_empty. }
  rewrite GetPortFromService_consulted, Hc. simpl. split.
  - rewrite IsValidPort_range. destruct (port_table !! s) as [p|] eqn:Hp; simpl.
    + assert (0 <= p < 65536) as Hr.
      { apply port_table_lookup in Hp as [[_ ->]|[[_ ->]|[_ ->]]]; apply to_uint16_range. }
      rewrite bool_decide_eq_true. split.
      * intros Hv. exists p. split; [done|lia].
      * intros (p' & [= <-] & Hne). lia.
    + split; [done|by intros (p' & ? & _)].
  - intros H1 H2 H3. destruct (port_table !! s) as [p|] eqn:Hp; [|done].
    apply port_table_lookup in Hp as [[-> _]|[[-> _]|[-> _]]]; done.
Qed.
End PortFacts.

Section FallbackFacts.
Context `{consts : Constants}.

(** X16: the entry "TIVA_RS485" of the address table is the one written
    first, the serial-relay address, as long as no interlake name is
    "TIVA_RS485"; when the interlake name of some round [j] is
    "TIVA_RS485", the interlake address of that round (the address prefix
    followed by the [int] sum of [MASTER_SYSTEM_HOST_ID] and [j]) has taken
    its place, the interlake entries being written last. *)
Theorem fallback_address_unless_shadowed :
  ((forall j, 0 <= j < MAX_INTERLAKE_SYSTEM_SIZE -> interlake_key j ≠ "TIVA_RS485") ->
   address_table !! "TIVA_RS485" = Some TIVA_RS485_IP_ADDRESS)
  /\ (forall j, 0 <= j < MAX_INTERLAKE_SYSTEM_SIZE -> interlake_key j = "TIVA_RS485" ->
        address_table !! "TIVA_RS485" = Some (interlake_address j)).
Proof.
  unfold address_table, AddInterlakeEndpoints. split.
  - intros Hfree. rewrite interlake_lookup_other; [done|].
    intros j Hj Heq. apply (Hfree j); [lia|done].
  - intros j Hj Hkey. rewrite <- Hkey. apply interlake_lookup_key. lia.
Qed.
End FallbackFacts.

(** X16 on constants of either kind. *)
Lemma fallback_address_unless_shadowed_witness :
  address_table (consts := sample_constants) !! "TIVA_RS485" = Some "127.0.0.1"
  /\ address_table (consts := shadowing_constants) !! "TIVA_RS485" = Some "169.254.0.11".
Proof.
  split.
  - apply (proj1 (fallback_address_unless_shadowed (consts := sample_constants))).
    intros j Hj.
    assert (j = 0 \/ j = 1 \/ j = 2 \/ j = 3) as [->|[->|[->| ->]]] by (simpl in Hj; lia);
      discriminate.
  - apply (proj2 (fallback_address_unless_shadowed (consts := shadowing_constants)) 5).
    + simpl. lia.
    + reflexivity.
Defined.

(** X1 on the sample constants: the third interlake system; and on
    constants with the largest [int] as the master's host number, where the
    host number of the second system has wrapped. *)
Lemma interlake_endpoints_witness :
  AddInterlakeEndpoints (consts := sample_constants) ∅ !! "TIVA_2" = Some "169.254.0.8"
  /\ AddInterlakeEndpoints (consts := sample_constants) ∅ !! "SSH" = None
  /\ AddInterlakeEndpoints (consts := wrapping_constants) ∅ !! "TIVA_1"
     = Some "169.254.0.-2147483648".
Proof.
  destruct (interlake_endpoints (consts := sample_constants) ∅) as (Hkey & _ & Hother).
  destruct (interlake_endpoints (consts := wrapping_constants) ∅) as (Hwrap & _ & _).
  split; [|split].
  - apply (Hkey 2). simpl. lia.
  - rewrite Hother; [done|]. intros j Hj.
    assert (j = 0 \/ j = 1 \/ j = 2 \/ j = 3) as [->|[->|[->| ->]]] by (simpl in Hj; lia);
      discriminate.
  - apply (Hwrap 1). simpl. lia.
Defined.

(** X2 on the sample constants and a link that is up. *)
Lemma fixed_services_resolve_witness :
  (GetAddressFromService (consts := sample_constants) (Some operstate_up) "TIVA" ∅).1
  = "169.254.0.6".
Proof.
  apply (fixed_services_resolve (consts := sample_constants) (Some operstate_up)).
  reflexivity.
Defined.

(** X4 on the name of an interlake system. *)
Lemma base_service_strips_suffix_witness :
  base_service "TIVA_3" = "TIVA" /\ base_service "SSH" = "SSH".
Proof.
  split.
  - apply (proj1 (base_service_strips_suffix "TIVA" "3" "SSH")). reflexivity.
  - apply (proj1 (proj2 (base_service_strips_suffix "TIVA" "3" "SSH"))). reflexivity.
Defined.

(** X6 on a file whose first line is "up" and on one that says "down". *)
Lemma first_line_decides_witness :
  AppendPostfixToService (Some ("up" +:+ String line_feed "unknown")) "TIVA" = "TIVA_TCP"
  /\ AppendPostfixToService (Some "down") "TIVA" = "TIVA_RS485".
Proof.
  split.
  - apply (first_line_decides "up" "unknown"). reflexivity.
  - apply (first_line_decides "down" EmptyString). reflexivity.
Defined.

(** X7 on the filled sample table. *)
Lemma port_accepted_iff_listed_witness :
  IsValidPort (GetPortFromService (consts := sample_constants) "SSH" ∅).1 = true
  /\ IsValidPort (GetPortFromService (consts := sample_constants) "FTP" ∅).1 = false.
Proof.
  split.
  - apply (port_accepted_iff_listed (consts := sample_constants) "SSH" ∅); [by left|].
    exists 22. split; [reflexivity|discriminate].
  - apply (port_accepted_iff_listed (consts := sample_constants) "FTP" ∅);
      first [by left | discriminate].
Defined.

(** ** The notification handler *)

Section MoreHandlerFacts.
Context `{consts : Constants} `{plat : Platform} `{sess : SessionClass}.

(** What a run of [notified] leaves of the feature and what the session it
    builds is made of. *)
Lemma notified_anatomy (w : World) (r : SecureTunnelingNotifyResponse)
    (f f' : Feature) (o : Outcome) :
  notified w r f = Some (f', o) ->
  (mThingName f' = mThingName f /\ mRootCa f' = mRootCa f
   /\ mSubscribeNotification f' = mSubscribeNotification f
   /\ mEndpoint f' = mEndpoint f)
  /\ (mServiceToAddressMap f' = mServiceToAddressMap f
      \/ mServiceToAddressMap f' = consulted (mServiceToAddressMap f))
  /\ (mServiceToPortMap f' = mServiceToPortMap f
      \/ mServiceToPortMap f' = consulted_ports (mServiceToPortMap f))
  /\ forall c, o = Registered c \/ o = Discarded c ->
       exists tok reg svc,
         ClientAccessToken r = Some tok /\ Region r = Some reg /\ Services r = Some [svc]
         /\ this c = allocated w
         /\ ctxRootCa c = mRootCa f
         /\ ctxAccessToken c = c_str tok
         /\ ctxEndpoint c = GetEndpoint (mEndpoint f) (c_str reg)
         /\ ctxAddress c
            = (GetAddressFromService (operstate w) (c_str svc) (mServiceToAddressMap f)).1
         /\ ctxPort c
            = (GetPortFromService (base_service (c_str svc)) (mServiceToPortMap f)).1
         /\ IsValidAddress (ctxAddress c) = true
         /\ IsValidPort (ctxPort c) = true.
Proof.
  unfold notified. intros Hn.
  destruct (any_duplicate (mContexts f) r) as [[|]|]; [| |done].
  { simplify_eq. repeat split; try (by left). by intros c [?|?]. }
  destruct (ClientMode r) as [mode|]; [|done].
  destruct (negb _); [simplify_eq; repeat split; try (by left); by intros c [?|?]|].
  destruct (Services r) as [[|svc others]|];
    [simplify_eq; repeat split; try (by left); by intros c [?|?]|
    |simplify_eq; repeat split; try (by left); by intros c [?|?]].
  destruct others as [|svc2 others]; simpl in Hn;
    [|simplify_eq; repeat split; try (by left); by intros c [?|?]].
  destruct (ClientAccessToken r) as [tok|];
    [|simplify_eq; repeat split; try (by left); by intros c [?|?]].
  destruct (string_empty tok);
    [simplify_eq; repeat split; try (by left); by intros c [?|?]|].
  destruct (Region r) as [reg|];
    [|simplify_eq; repeat split; try (by left); by intros c [?|?]].
  destruct (string_empty reg);
    [simplify_eq; repeat split; try (by left); by intros c [?|?]|].
  rewrite GetAddressFromService_consulted in Hn. simpl in Hn.
  rewrite GetPortFromService_consulted in Hn. simpl in Hn.
  destruct (IsValidAddress _) eqn:Hva; simpl in Hn;
    [|simplify_eq; repeat split; try (by left); try (by right); by intros c [?|?]].
  destruct (IsValidPort _) eqn:Hvp; simpl in Hn;
    [|simplify_eq; repeat split; try (by left); try (by right); by intros c [?|?]].
  destruct (connects w); simplify_eq; simpl.
  - repeat split; try (by right).
    intros c [[= <-]|?]; [|done]. exists tok, reg, svc.
    rewrite GetAddressFromService_consulted, GetPortFromService_consulted.
    by repeat split.
  - repeat split; try (by right).
    intros c [?|[= <-]]; [done|]. exists tok, reg, svc.
    rewrite GetAddressFromService_consulted, GetPortFromService_consulted.
    by repeat split.
Qed.
End MoreHandlerFacts.

Section HandlerExtras.
Context `{consts : Constants} `{plat : Platform} `{sess : SessionClass}.

Lemma handler_anatomy (w : World) (response : option SecureTunnelingNotifyResponse)
    (ioErr : Z) (f f' : Feature) (o : Outcome) :
  OnSubscribeToTunnelsNotifyResponse w response ioErr f = Some (f', o) ->
  (mThingName f' = mThingName f /\ mRootCa f' = mRootCa f
   /\ mSubscribeNotification f' = mSubscribeNotification f
   /\ mEndpoint f' = mEndpoint f)
  /\ (mServiceToAddressMap f' = mServiceToAddressMap f
      \/ mServiceToAddressMap f' = consulted (mServiceToAddressMap f))
  /\ (mServiceToPortMap f' = mServiceToPortMap f
      \/ mServiceToPortMap f' = consulted_ports (mServiceToPortMap f))
  /\ forall c, o = Registered c \/ o = Discarded c ->
       IsValidAddress (ctxAddress c) = true /\ IsValidPort (ctxPort c) = true.
Proof.
  unfold OnSubscribeToTunnelsNotifyResponse. intros Hn.
  destruct (Z.eqb ioErr 0);
    [|simplify_eq; split; [done|]; split; [by left|]; split; [by left|];
      by intros c [?|?]].
  destruct response as [r|];
    [|simplify_eq; split; [done|]; split; [by left|]; split; [by left|];
      by intros c [?|?]].
  destruct (notified_anatomy w r f f' o Hn) as (Hcfg & Ham & Hpm & Hc).
  split; [done|]. split; [done|]. split; [done|].
  intros c Ho. destruct (Hc c Ho) as (? & ? & ? & ?). tauto.
Qed.

(** X8: a run of the handler leaves the configuration of the feature
    (thing name, root CA, mode, endpoint override) as it was; it removes no
    session and reorders none, the registry being the old one or the old one
    with the new session appended, the latter exactly when the run ends in
    [Registered]; and each static table is the one it was or that one filled
    in. *)
Theorem handler_frame (w : World) (response : option SecureTunnelingNotifyResponse)
    (ioErr : Z) (f f' : Feature) (o : Outcome) :
  OnSubscribeToTunnelsNotifyResponse w response ioErr f = Some (f', o) ->
  mThingName f' = mThingName f /\ mRootCa f' = mRootCa f
  /\ mSubscribeNotification f' = mSubscribeNotification f
  /\ mEndpoint f' = mEndpoint f
  /\ mContexts f' = match o with
                    | Registered c => mContexts f ++ [owns c]
                    | _ => mContexts f
                    end
  /\ (mServiceToAddressMap f' = mServiceToAddressMap f
      \/ mServiceToAddressMap f' = consulted (mServiceToAddressMap f))
  /\ (mServiceToPortMap f' = mServiceToPortMap f
      \/ mServiceToPortMap f' = consulted_ports (mServiceToPortMap f)).
Proof.
  intros Hn. destruct (handler_anatomy w response ioErr f f' o Hn)
    as ((H1 & H2 & H3 & H4) & Ham & Hpm & _).
  pose proof (handler_outcome w response ioErr f f' o Hn) as Ho.
  repeat split; try done. destruct o; tauto.
Qed.

(** X9: the session a run of the handler builds, be it registered or
    dropped after a failed connect, sits at the address [new] gave, carries
    the root CA of the feature, the access token of the notification, the
    endpoint [GetEndpoint] derives from its region, the address the table
    holds for the normalized name of its one service and the port the table
    holds for the key of that name; that address has passed [inet_pton] and
    that port lies in 1..65535. *)
Theorem built_session_is_resolved (w : World) (r : SecureTunnelingNotifyResponse)
    (f f' : Feature) (o : Outcome) (c : SecureTunnelingContext) :
  OnSubscribeToTunnelsNotifyResponse w (Some r) 0 f = Some (f', o) ->
  o = Registered c \/ o = Discarded c ->
  exists tok reg svc,
    ClientAccessToken r = Some tok /\ Region r = Some reg /\ Services r = Some [svc]
    /\ this c = allocated w
    /\ ctxRootCa c = mRootCa f
    /\ ctxAccessToken c = c_str tok
    /\ ctxEndpoint c = GetEndpoint (mEndpoint f) (c_str reg)
    /\ ctxAddress c
       = default EmptyString
           (consulted (mServiceToAddressMap f)
              !! AppendPostfixToService (operstate w) (c_str svc))
    /\ ctxPort c
       = default 0 (consulted_ports (mServiceToPortMap f) !! base_service (c_str svc))
    /\ inet_pton4 (c_str (ctxAddress c)) = true
    /\ 1 <= ctxPort c <= 65535.
Proof.
  unfold OnSubscribeToTunnelsNotifyResponse. simpl. intros Hn Ho.
  destruct (notified_anatomy w r f f' o Hn) as (_ & _ & _ & Hc).
  destruct (Hc c Ho) as (tok & reg & svc & Ht & Hr & Hs & H1 & H2 & H3 & H4 & H5 & H6 & H7 & H8).
  exists tok, reg, svc.
  rewrite GetAddressFromService_consulted in H5.
  rewrite GetPortFromService_consulted in H6.
  rewrite IsValidPort_range in H8. apply bool_decide_eq_true in H8.
  repeat split; try done; lia.
Qed.

(** X10: a notification that gets as far as the address check with a service
    name the address table does not hold is turned down there, given that
    [inet_pton] refuses the empty string, which is what
    [GetAddressFromService] answers for a missing name: the log line is the
    one of the address check, the registry is untouched and the table is
    left filled. *)
Theorem unknown_service_is_rejected (w : World) (r : SecureTunnelingNotifyResponse)
    (f : Feature) (mode svc tok reg : string) :
  any_duplicate (mContexts f) r = Some false ->
  ClientMode r = Some mode -> c_str mode = "destination" ->
  Services r = Some [svc] ->
  ClientAccessToken r = Some tok -> string_empty tok = false ->
  Region r = Some reg -> string_empty reg = false ->
  consulted (mServiceToAddressMap f)
    !! AppendPostfixToService (operstate w) (c_str svc) = None ->
  inet_pton4 EmptyString = false ->
  OnSubscribeToTunnelsNotifyResponse w (Some r) 0 f
  = Some (set_address_map f (consulted (mServiceToAddressMap f)), Rejected InvalidAddress).
Proof.
  intros Hdup Hmode Hdest Hsvc Htok Hte Hreg Hre Hlook Hpton.
  unfold OnSubscribeToTunnelsNotifyResponse, notified. simpl.
  rewrite Hdup, Hmode, Hdest, Hsvc, Htok, Hte, Hreg, Hre. simpl.
  rewrite GetAddressFromService_consulted, Hlook. simpl.
  unfold IsValidAddress. simpl. by rewrite Hpton.
Qed.
End HandlerExtras.

(** X10 on the request for the service "FTP", which the sample table does
    not hold. *)
Lemma unknown_service_is_rejected_witness :
  OnSubscribeToTunnelsNotifyResponse (consts := sample_constants) (plat := sample_platform)
      (sess := sample_sessions)
    (world None 1 true) (Some unknown_service_request) 0 subscribed_feature
  = Some (set_address_map subscribed_feature (address_table (consts := sample_constants)),
          Rejected InvalidAddress).
Proof.
  apply (unknown_service_is_rejected (consts := sample_constants) (plat := sample_platform)
      (sess := sample_sessions)
           (world None 1 true) unknown_service_request subscribed_feature
           "destination" "FTP" "tok" "us-east-1"); reflexivity.
Defined.

(** X8 on the request for SSH in the feature that has just subscribed. *)
Lemma handler_frame_witness :
  mContexts serving_ssh = mContexts subscribed_feature ++ [owns (ssh_session 1)]
  /\ mEndpoint serving_ssh = None.
Proof.
  destruct (handler_frame (consts := sample_constants) (plat := sample_platform)
      (sess := sample_sessions)
              (world None 1 true) (Some ssh_request) 0 subscribed_feature serving_ssh
              (Registered (ssh_session 1)))
    as (_ & _ & _ & He & Hcs & _); [by vm_compute|].
  split; [exact Hcs|exact He].
Defined.

(** X9 on the session built for that request. *)
Lemma built_session_is_resolved_witness :
  inet_pton4 (Platform := sample_platform) (c_str (ctxAddress (ssh_session 1))) = true
  /\ 1 <= ctxPort (ssh_session 1) <= 65535.
Proof.
  destruct (built_session_is_resolved (consts := sample_constants) (plat := sample_platform)
      (sess := sample_sessions)
              (world None 1 true) ssh_request subscribed_feature serving_ssh
              (Registered (ssh_session 1)) (ssh_session 1))
    as (tok & reg & svc & _ & _ & _ & _ & _ & _ & _ & _ & _ & Ha & Hp);
    [by vm_compute|by left|].
  split; [exact Ha|exact Hp].
Defined.

(** ** The close callback *)

Lemma filter_keeps_all {A} (P : A -> Prop) `{forall x, Decision (P x)} (l : list A) :
  (forall x, x ∈ l -> P x) -> filter P l = l.
Proof.
  induction l as [|a l IH]; intros Hall; [done|].
  rewrite filter_cons_True by (apply Hall; left).
  f_equal. apply IH. intros x Hx. apply Hall. by right.
Qed.

Lemma registry_wf_filter (P : unique_ptr -> Prop) `{forall x, Decision (P x)}
    (cs : list unique_ptr) :
  registry_wf cs -> registry_wf (filter P cs).
Proof.
  intros [Hnd Hnull]. split.
  - eapply sublist_NoDup; [exact Hnd|]. apply fmap_sublist, sublist_filter.
  - intros Hin. apply Hnull. apply list_elem_of_fmap in Hin as (x & -> & Hx).
    apply list_elem_of_filter in Hx as [_ Hx]. by apply list_elem_of_fmap_2.
Qed.

Lemma registered_split (cs : list unique_ptr) (p : N) :
  registry_wf cs -> p ∈ get <$> cs ->
  exists l1 c l2, cs = l1 ++ owns c :: l2 /\ p = Npos (this c).
Proof.
  intros [_ Hnull] Hin. apply list_elem_of_fmap in Hin as (x & -> & Hx).
  destruct (list_elem_of_split _ _ Hx) as (l1 & l2 & ->).
  destruct x as [|c].
  - exfalso. apply Hnull. by apply (list_elem_of_fmap_2 get _ nullptr).
  - by exists l1, c, l2.
Qed.

Section CloseExtras.
Context `{consts : Constants} `{plat : Platform} `{sess : SessionClass}.

(** The close callback of a registered session keeps the sessions of every
    other address. *)
Lemma OnConnectionShutdown_filter (f : Feature) (p : N) :
  registry_wf (mContexts f) -> p ∈ get <$> mContexts f ->
  OnConnectionShutdown p f
  = Some (set_contexts f (filter (fun x => get x ≠ p) (mContexts f))).
Proof.
  intros Hwf Hin.
  destruct (registered_split _ _ Hwf Hin) as (l1 & c & l2 & Hcs & ->).
  rewrite (OnConnectionShutdown_registered f l1 l2 c Hcs Hwf).
  rewrite Hcs in Hwf |- *.
  destruct (registry_wf_split _ _ _ Hwf) as (Hl1 & Hl2 & _ & _).
  rewrite filter_app, filter_cons_False by (intros Hne; by apply Hne).
  by rewrite !filter_keeps_all.
Qed.

(** X11: registering and closing undo each other on the registry. When a
    run of the handler on a registry of distinct sessions registers a
    session at a fresh address, the close callback of that session gives the
    registry back as it was before the run. *)
Theorem register_then_close (w : World) (response : option SecureTunnelingNotifyResponse)
    (ioErr : Z) (f f' : Feature) (c : SecureTunnelingContext) :
  registry_wf (mContexts f) ->
  Npos (allocated w) ∉ live f ->
  OnSubscribeToTunnelsNotifyResponse w response ioErr f = Some (f', Registered c) ->
  OnConnectionShutdown (Npos (this c)) f' = Some (set_contexts f' (mContexts f)).
Proof.
  intros Hwf Hfresh Hn.
  destruct (handler_registry w response ioErr f f' _ Hn)
    as [Hsame|(c' & r & _ & Hcs & Hthis & _)].
  { pose proof (handler_outcome w response ioErr f f' _ Hn) as [Ho _].
    rewrite Hsame in Ho. apply (f_equal length) in Ho.
    rewrite length_app in Ho. simpl in Ho. lia. }
  pose proof (handler_outcome w response ioErr f f' _ Hn) as [Ho _].
  rewrite Ho in Hcs. apply app_inj_tail in Hcs as [_ [= <-]].
  replace (set_contexts f' (mContexts f)) with (set_contexts f' (mContexts f ++ []))
    by (by rewrite app_nil_r).
  apply OnConnectionShutdown_registered; [done|].
  rewrite Ho. destruct Hwf as [Hnd Hnull]. split.
  - rewrite fmap_app. apply NoDup_app. split; [done|]. split.
    + intros x Hx Hin. simpl in Hin. apply list_elem_of_singleton in Hin.
      subst x. apply Hfresh. by rewrite <- Hthis.
    + apply NoDup_singleton.
  - rewrite fmap_app. intros Hin. apply elem_of_app in Hin as [Hin|Hin]; [done|].
    simpl in Hin. by apply list_elem_of_singleton in Hin.
Qed.

(** X12: close callbacks of two different registered sessions commute: in
    either order both calls are defined and leave the same feature, whose
    registry holds the sessions of all other addresses in their order. *)
Theorem close_callbacks_commute (f : Feature) (p q : N) :
  registry_wf (mContexts f) ->
  p ∈ get <$> mContexts f -> q ∈ get <$> mContexts f -> p ≠ q ->
  exists f1 f2 g,
    OnConnectionShutdown p f = Some f1 /\ OnConnectionShutdown q f1 = Some g
    /\ OnConnectionShutdown q f = Some f2 /\ OnConnectionShutdown p f2 = Some g
    /\ mContexts g = filter (fun x => get x ≠ p /\ get x ≠ q) (mContexts f).
Proof.
  intros Hwf Hp Hq Hne.
  assert (forall a b (cs : list unique_ptr), a ∈ get <$> cs -> a ≠ b ->
            a ∈ get <$> filter (fun x => get x ≠ b) cs) as Hstay.
  { intros a b cs Ha Hab. apply list_elem_of_fmap in Ha as (x & -> & Hx).
    apply list_elem_of_fmap_2. apply list_elem_of_filter. by split. }
  eexists _, _, _. split; [by apply OnConnectionShutdown_filter|].
  split.
  { apply OnConnectionShutdown_filter; simpl.
    - by apply registry_wf_filter.
    - by apply Hstay. }
  split; [by apply OnConnectionShutdown_filter|].
  split.
  { rewrite OnConnectionShutdown_filter; simpl.
    - f_equal. unfold set_contexts. simpl. f_equal.
      rewrite !list_filter_filter. apply list_filter_iff. tauto.
    - by apply registry_wf_filter.
    - apply Hstay; [done|]. by intros ->. }
  simpl. rewrite list_filter_filter. apply list_filter_iff. tauto.
Qed.
End CloseExtras.

(** X11 on the feature that serves one SSH request, which started from an
    empty registry. *)
Lemma register_then_close_witness :
  OnConnectionShutdown 1%N serving_ssh = Some (set_contexts serving_ssh []).
Proof.
  apply (register_then_close (consts := sample_constants) (plat := sample_platform)
      (sess := sample_sessions)
           (world None 1 true) (Some ssh_request) 0 subscribed_feature serving_ssh
           (ssh_session 1)).
  - unfold registry_wf. apply (bool_decide_unpack _). by vm_compute.
  - apply not_elem_of_nil.
  - by vm_compute.
Defined.

(** X12 on a registry of three sessions, closing the first and the third. *)
Lemma close_callbacks_commute_witness :
  let f := set_contexts fresh_feature
             [owns (session_at 1); owns (session_at 2); owns (session_at 3)] in
  exists f1 f2 g,
    OnConnectionShutdown 1%N f = Some f1 /\ OnConnectionShutdown 3%N f1 = Some g
    /\ OnConnectionShutdown 3%N f = Some f2 /\ OnConnectionShutdown 1%N f2 = Some g
    /\ mContexts g = [owns (session_at 2)].
Proof.
  intros f.
  apply (close_callbacks_commute f 1%N 3%N).
  - unfold registry_wf. apply (bool_decide_unpack _). by vm_compute.
  - apply (bool_decide_unpack _). by vm_compute.
  - apply (bool_decide_unpack _). by vm_compute.
  - discriminate.
Defined.

(** ** The states the feature reaches *)

Section ReachableExtras.
Context `{consts : Constants} `{plat : Platform} `{sess : SessionClass}.

Lemma boot_anatomy (w : World) (config : PlainConfig) (f : Feature) :
  boot w config = Some f ->
  mSubscribeNotification f = subscribeNotification (tunneling config)
  /\ mServiceToAddressMap f = ∅ /\ mServiceToPortMap f = ∅
  /\ (if mSubscribeNotification f then mContexts f = []
      else length (mContexts f) = 1%nat).
Proof.
  unfold boot, init, LoadFromConfig.
  destruct (thingName config) as [name|]; [|done].
  destruct (subscribeNotification (tunneling config)) eqn:Hmode.
  - unfold start, RunSecureTunneling. simpl. by intros [= <-].
  - destruct (destinationAccessToken (tunneling config)) as [token|]; [|done].
    destruct (region (tunneling config)) as [reg|]; [|done].
    destruct (address (tunneling config)) as [addr|]; [|done].
    destruct (port (tunneling config)) as [prt|]; [|done].
    unfold start, RunSecureTunneling. simpl. by intros [= <-].
Qed.

Lemma settled_step_address (m m' : gmap string string) :
  m = ∅ \/ m = address_table -> m' = m \/ m' = consulted m ->
  m' = ∅ \/ m' = address_table.
Proof.
  intros Hm [->| ->]; [done|]. right. unfold consulted.
  destruct Hm as [->| ->]; [by rewrite decide_True|].
  by rewrite decide_False by apply address_table_not_empty.
Qed.

Lemma settled_step_port (m m' : gmap string Z) :
  m = ∅ \/ m = port_table -> m' = m \/ m' = consulted_ports m ->
  m' = ∅ \/ m' = port_table.
Proof.
  intros Hm [->| ->]; [done|]. right. unfold consulted_ports.
  destruct Hm as [->| ->]; [by rewrite decide_True|].
  by rewrite decide_False by apply port_table_not_empty.
Qed.

Lemma reachable_tables_settled (f : Feature) : reachable f -> tables_settled f.
Proof.
  induction 1 as [w config f Hb | f w response ioErr f' o Hr IH Hsub Hfresh Hn
                  | f p f' Hr IH Hs | f f' Hr IH Hs ].
  - destruct (boot_anatomy w config f Hb) as (_ & Ha & Hp & _).
    split; by left.
  - destruct IH as [Ha Hp].
    destruct (handler_anatomy w response ioErr f f' o Hn) as (_ & Ha' & Hp' & _).
    split; [by eapply settled_step_address|by eapply settled_step_port].
  - pose proof (reachable_registry_inv f Hr) as Hwf.
    destruct (shutdown_registry p f f' Hwf Hs) as (l1 & l2 & c & _ & _ & ->).
    exact IH.
  - unfold stop in Hs. destruct (call_each (mContexts f)); by simplify_eq.
Qed.

Lemma reachable_sessions_accounted (f : Feature) : reachable f -> sessions_accounted f.
Proof.
  unfold sessions_accounted.
  induction 1 as [w config f Hb | f w response ioErr f' o Hr IH Hsub Hfresh Hn
                  | f p f' Hr IH Hs | f f' Hr IH Hs ].
  - destruct (boot_anatomy w config f Hb) as (_ & _ & _ & Hcs).
    destruct (mSubscribeNotification f); [by rewrite Hcs|lia].
  - destruct (handler_anatomy w response ioErr f f' o Hn)
      as ((_ & _ & Hflag & _) & _ & _ & Hc).
    rewrite Hflag, Hsub. rewrite Hsub in IH.
    pose proof (handler_outcome w response ioErr f f' o Hn) as Ho.
    destruct o as [| | |c|c]; try (by rewrite Ho).
    destruct Ho as [-> _]. apply Forall_app. split; [done|].
    apply Forall_singleton. destruct (Hc c (or_introl eq_refl)) as [Ha Hp].
    exists c. split; [done|]. split; [done|].
    rewrite IsValidPort_range in Hp. by apply bool_decide_eq_true in Hp.
  - pose proof (reachable_registry_inv f Hr) as Hwf.
    destruct (shutdown_registry p f f' Hwf Hs) as (l1 & l2 & c & Hcs & _ & ->).
    simpl. rewrite Hcs in IH. destruct (mSubscribeNotification f).
    + apply Forall_app in IH as [H1 H2]. apply Forall_cons in H2 as [_ H2].
      by apply Forall_app.
    + rewrite length_app in IH |- *. simpl in IH. lia.
  - unfold stop in Hs. destruct (call_each (mContexts f)); by simplify_eq.
Qed.

(** X13: in every state the feature reaches, the registry has no null slot
    and no two sessions at one address; so the handler is defined on every
    notification that carries a client mode, [stop] is defined and leaves
    the feature as it is, and the close callback is defined exactly for the
    addresses of registered sessions. *)
Theorem reachable_feature_is_sound (f : Feature) :
  reachable f ->
  registry_wf (mContexts f)
  /\ (forall w r, is_Some (ClientMode r) ->
        is_Some (OnSubscribeToTunnelsNotifyResponse w (Some r) 0 f))
  /\ stop f = Some f
  /\ (forall p, is_Some (OnConnectionShutdown p f) <-> p ∈ live f).
Proof.
  intros Hr. pose proof (reachable_registry_inv f Hr) as Hwf.
  pose proof Hwf as [_ Hnull].
  split; [done|]. split; [|split].
  - intros w r Hmode. by apply notified_defined.
  - by apply stop_defined.
  - intros p. split.
    + intros [f' Hs]. destruct (decide (p ∈ live f)) as [|Hno]; [done|].
      by rewrite (OnConnectionShutdown_unregistered f p Hno) in Hs.
    + intros Hin. by rewrite OnConnectionShutdown_filter.
Qed.

(** X14: in every state the feature reaches, the static tables are empty or
    the tables filled in full, so that resolution does not depend on what
    was resolved before: [GetAddressFromService] answers what the full
    address table holds for the normalized name and [GetPortFromService]
    what the full port table holds, the empty string and 0 standing for a
    missing name. *)
Theorem reachable_resolution (f : Feature) (file : option string) (s : string) :
  reachable f ->
  (GetAddressFromService file s (mServiceToAddressMap f)).1
  = default EmptyString (address_table !! AppendPostfixToService file s)
  /\ (GetPortFromService s (mServiceToPortMap f)).1 = default 0 (port_table !! s).
Proof.
  intros Hr. destruct (reachable_tables_settled f Hr) as [Ha Hp].
  rewrite GetAddressFromService_consulted, GetPortFromService_consulted. simpl.
  assert (consulted (mServiceToAddressMap f) = address_table) as ->.
  { destruct (settled_step_address _ (consulted (mServiceToAddressMap f)) Ha)
      as [He|He]; [by right| |done].
    unfold consulted in He |- *. case_decide; [done|congruence]. }
  assert (consulted_ports (mServiceToPortMap f) = port_table) as ->.
  { destruct (settled_step_port _ (consulted_ports (mServiceToPortMap f)) Hp)
      as [He|He]; [by right| |done].
    unfold consulted_ports in He |- *. case_decide; [done|congruence]. }
  done.
Qed.

(** X15: in every state the feature reaches in notification mode, each
    session of the registry has a destination address that passed
    [inet_pton] and a destination port within 1..65535; in static mode the
    registry never holds more than the one session of the configuration. *)
Theorem reachable_sessions (f : Feature) :
  reachable f ->
  (mSubscribeNotification f = true -> Forall validated (mContexts f))
  /\ (mSubscribeNotification f = false -> (length (mContexts f) <= 1)%nat).
Proof.
  intros Hr. pose proof (reachable_sessions_accounted f Hr) as Hacc.
  unfold sessions_accounted in Hacc.
  destruct (mSubscribeNotification f); split; done.
Qed.
End ReachableExtras.

(** X13 on the feature that serves one SSH request. *)
Lemma reachable_feature_is_sound_witness :
  registry_wf (mContexts serving_ssh) /\ stop serving_ssh = Some serving_ssh.
Proof.
  destruct (reachable_feature_is_sound (consts := sample_constants)
              (plat := sample_platform)
      (sess := sample_sessions) serving_ssh serving_ssh_reachable)
    as (Hwf & _ & Hstop & _).
  split; [exact Hwf|exact Hstop].
Defined.

(** X14 on that feature and the service "GW". *)
Lemma reachable_resolution_witness :
  (GetAddressFromService (consts := sample_constants) None "GW"
     (mServiceToAddressMap serving_ssh)).1
  = default EmptyString
      (address_table (consts := sample_constants) !! AppendPostfixToService None "GW").
Proof.
  apply (reachable_resolution (consts := sample_constants) (plat := sample_platform)
      (sess := sample_sessions)
           serving_ssh None "GW" serving_ssh_reachable).
Defined.

(** X15 on that feature, which is in notification mode. *)
Lemma reachable_sessions_witness :
  Forall (validated (plat := sample_platform)) (mContexts serving_ssh).
Proof.
  apply (reachable_sessions (consts := sample_constants) (plat := sample_platform)
      (sess := sample_sessions)
           serving_ssh serving_ssh_reachable).
  reflexivity.
Defined.

(** ** End to end *)

Section ServedFacts.
Context `{consts : Constants} `{plat : Platform} `{sess : SessionClass}.

Lemma settled_consulted (m : gmap string string) :
  m = ∅ \/ m = address_table -> consulted m = address_table.
Proof.
  unfold consulted. intros [->| ->]; [by rewrite decide_True|].
  by rewrite decide_False by apply address_table_not_empty.
Qed.

Lemma settled_consulted_ports (m : gmap string Z) :
  m = ∅ \/ m = port_table -> consulted_ports m = port_table.
Proof.
  unfold consulted_ports. intros [->| ->]; [by rewrite decide_True|].
  by rewrite decide_False by apply port_table_not_empty.
Qed.

Lemma port_table_range (s : string) : 0 <= default 0 (port_table !! s) < 65536.
Proof.
  destruct (port_table !! s) as [p|] eqn:Hp; simpl; [|lia].
  apply port_table_lookup in Hp as [[_ ->]|[[_ ->]|[_ ->]]]; apply to_uint16_range.
Qed.

(** X17: in every state the feature reaches, a notification that is no
    duplicate, is in destination mode and names one service, an access token
    and a region, is settled by the full tables alone: it is turned down at
    the address check when [inet_pton] refuses what the address table holds
    for the normalized service name (the empty string for a missing name),
    at the port check when the port table holds nothing or 0 for the key of
    the name, and otherwise a session to that address and port is built, and
    registered when its connect succeeds. *)
Theorem notification_is_served_from_tables (w : World) (r : SecureTunnelingNotifyResponse)
    (f : Feature) (mode tok reg svc : string) :
  reachable f ->
  any_duplicate (mContexts f) r = Some false ->
  ClientMode r = Some mode -> c_str mode = "destination" ->
  Services r = Some [svc] ->
  ClientAccessToken r = Some tok -> string_empty tok = false ->
  Region r = Some reg -> string_empty reg = false ->
  exists f',
    OnSubscribeToTunnelsNotifyResponse w (Some r) 0 f
    = Some (f', served_outcome w f tok reg svc)
    /\ mContexts f'
       = match served_outcome w f tok reg svc with
         | Registered c => mContexts f ++ [owns c]
         | _ => mContexts f
         end.
Proof.
  intros Hreach Hdup Hmode Hdest Hsvc Htok Hte Hreg Hre.
  destruct (reachable_tables_settled f Hreach) as [Ha Hp].
  unfold OnSubscribeToTunnelsNotifyResponse, notified. simpl.
  rewrite Hdup, Hmode, Hdest, Hsvc, Htok, Hte, Hreg, Hre. simpl.
  rewrite GetAddressFromService_consulted, (settled_consulted _ Ha). simpl.
  rewrite GetPortFromService_consulted, (settled_consulted_ports _ Hp). simpl.
  unfold served_outcome, served_session, IsValidAddress. simpl.
  destruct (inet_pton4 _); simpl; [|by eexists].
  pose proof (port_table_range (base_service (c_str svc))) as Hrange.
  unfold IsValidPort.
  destruct (Z.eqb_spec (default 0 (port_table !! base_service (c_str svc))) 0) as [He|Hne].
  - rewrite He. simpl. by eexists.
  - rewrite (proj2 (Z.leb_le 1 _)) by lia. rewrite (proj2 (Z.leb_le _ 65535)) by lia.
    simpl. destruct (connects w); by eexists.
Qed.
End ServedFacts.

(** X17 on the request for SSH in the feature that has just subscribed. *)
Lemma notification_is_served_from_tables_witness :
  exists f',
    OnSubscribeToTunnelsNotifyResponse (consts := sample_constants) (plat := sample_platform)
      (sess := sample_sessions)
      (world None 1 true) (Some ssh_request) 0 subscribed_feature
    = Some (f', Registered (ssh_session 1))
    /\ mContexts f' = [owns (ssh_session 1)].
Proof.
  apply (notification_is_served_from_tables (consts := sample_constants)
           (plat := sample_platform)
      (sess := sample_sessions) (world None 1 true) ssh_request subscribed_feature
           "destination" "tok" "us-east-1" "SSH"); try reflexivity.
  by apply (reach_boot (consts := sample_constants) (plat := sample_platform)
              (world None 1 true) subscribing_config).
Defined.

(** * The registry and duplicate notifications *)







Section DuplicateFacts.
Context `{consts : Constants} `{plat : Platform} `{sess : SessionClass}.





End DuplicateFacts.



